(** * practice5/main.cpp: textured ground plane with an animated texture

    A shallow embedding of the frame loop of [main]: the animation clock,
    the event handling, the projection matrix, the texture bank and the
    sampler uniforms, followed by the properties proved about them.

    C++ [float] is IEEE binary32 (round to nearest even), modelled with the
    executable [spec_float] operations at precision 24; [int] values are
    kept in [Z]; bytes are [Z] in [0, 256). *)

From Stdlib Require Import ZArith List QArith Qround Lia String Ascii.
From Stdlib Require Import Floats.SpecFloat.
From stdpp Require Import base option list gmap strings.

Local Open Scope Z_scope.

(** ** C++ [float] *)

Module F32.
Definition prec : Z := 24.
Definition emax : Z := 128.

Definition t : Type := spec_float.

(** Conversion [int -> float] (rounds beyond 2^24). *)
Definition of_int (n : Z) : t := binary_normalize prec emax n 0 false.

Definition add : t -> t -> t := SFadd prec emax.
Definition sub : t -> t -> t := SFsub prec emax.
Definition mul : t -> t -> t := SFmul prec emax.
Definition div : t -> t -> t := SFdiv prec emax.
Definition opp : t -> t := SFopp.

(** [a >= b]; false as soon as one side is a NaN. *)
Definition geb (a b : t) : bool := SFleb b a.
Definition leb (a b : t) : bool := SFleb a b.

(** A decimal literal [n/d] with [n] and [d] exactly representable: the
    correctly rounded quotient. *)
Definition lit (n d : Z) : t := div (of_int n) (of_int d).

Definition zero : t := S754_zero false.

(** The exact rational value of a finite float. *)
Definition to_Q (x : t) : option Q :=
  match x with
  | S754_zero _ => Some 0%Q
  | S754_finite s m e =>
      let q := if 0 <=? e then inject_Z (Zpos m * 2 ^ e)
               else Qmake (Zpos m) (Z.to_pos (2 ^ (- e))) in
      Some (if s then Qopp q else q)
  | S754_infinity _ | S754_nan => None
  end.
End F32.

(** ** Animation clock (main.cpp, lines 247-251 and 286-295) *)

Module Clock.

Record clock : Type := {
  time : F32.t;
  prev_time : F32.t;
  curr_frame : Z;
  curr_frame_changed : bool
}.

(** [0.05f] *)
Definition tick : F32.t := Eval vm_compute in F32.lit 1 20.

Definition init : clock :=
  {| time := F32.zero; prev_time := F32.zero;
     curr_frame := 0; curr_frame_changed := false |}.

(** The branch condition [time - prev_time >= 0.05f], after [time += dt]. *)
Definition due (dt : F32.t) (c : clock) : bool :=
  F32.geb (F32.sub (F32.add (time c) dt) (prev_time c)) tick.

(** One loop iteration: [time += dt] and the [if] of lines 288-295. *)
Definition step (dt : F32.t) (c : clock) : clock :=
  let time := F32.add (time c) dt in
  if F32.geb (F32.sub time (prev_time c)) tick then
    let curr_frame := curr_frame c + 1 in
    {| time := time;
       prev_time := time;
       curr_frame := if 15 <=? curr_frame then 0 else curr_frame;
       curr_frame_changed := true |}
  else
    {| time := time;
       prev_time := prev_time c;
       curr_frame := curr_frame c;
       curr_frame_changed := false |}.

(** The clock after the iterations whose measured frame times are [dts]. *)
Fixpoint run (dts : list F32.t) (c : clock) : clock :=
  match dts with
  | [] => c
  | dt :: rest => run rest (step dt c)
  end.

(** On how many of those iterations the branch condition held. *)
Fixpoint advances (dts : list F32.t) (c : clock) : Z :=
  match dts with
  | [] => 0
  | dt :: rest => (if due dt c then 1 else 0) + advances rest (step dt c)
  end.

(** The closed formula of the specification, on an exact elapsed time. *)
Definition spec_frame_index (t : Q) : Z :=
  Qfloor (t / (1 # 20)) mod 15.

(** [0.016f], the frame time of the 60 FPS scenario. *)
Definition dt_60fps : F32.t := Eval vm_compute in F32.lit 2 125.

(** The frame times of [n] iterations at that rate. *)
Definition scenario_60fps (n : nat) : list F32.t := replicate n dt_60fps.

End Clock.

(** ** The part of the OpenGL state the program touches *)

Module GL.

Inductive pixel_format : Type := GL_RGB | GL_RGBA.

Definition bytes_per_pixel (f : pixel_format) : Z :=
  match f with GL_RGB => 3 | GL_RGBA => 4 end.

(** An image as [glTexImage2D] receives it with [GL_UNSIGNED_BYTE]: the
    client bytes, rows [row_stride] bytes apart. *)
Record image : Type := {
  img_width : Z;
  img_height : Z;
  img_format : pixel_format;
  row_stride : Z;
  img_data : list Z
}.

Record rgba : Type := { red : Z; green : Z; blue : Z; alpha : Z }.

Definition byte_at (data : list Z) (off : Z) : option Z :=
  if off <? 0 then None else data !! Z.to_nat off.

(** The texel in column [x] of row [y]. *)
Definition texel (im : image) (x y : Z) : option rgba :=
  if (0 <=? x) && (x <? img_width im) && (0 <=? y) && (y <? img_height im)
  then
    let off := y * row_stride im + x * bytes_per_pixel (img_format im) in
    r ← byte_at (img_data im) off;
    g ← byte_at (img_data im) (off + 1);
    b ← byte_at (img_data im) (off + 2);
    match img_format im with
    | GL_RGB => Some {| red := r; green := g; blue := b; alpha := 255 |}
    | GL_RGBA =>
        a ← byte_at (img_data im) (off + 3);
        Some {| red := r; green := g; blue := b; alpha := a |}
    end
  else None.

Inductive uniform_value : Type :=
| Int1 (v : Z)
| Mat4 (transpose : bool) (m : list F32.t).

Record state : Type := {
  viewport : Z * Z * Z * Z;
  unpack_alignment : Z;
  next_texture : Z;
  active_texture : Z;
  texture_binding_2d : gmap Z Z;
  textures : gmap Z (gmap Z image);
  uniforms : gmap Z uniform_value
}.

(** A fresh context for a [w] by [h] window. *)
Definition initial (w h : Z) : state :=
  {| viewport := (0, 0, w, h); unpack_alignment := 4; next_texture := 1;
     active_texture := 0; texture_binding_2d := ∅; textures := ∅;
     uniforms := ∅ |}.

Definition set_viewport (v : Z * Z * Z * Z) (s : state) : state :=
  {| viewport := v; unpack_alignment := unpack_alignment s;
     next_texture := next_texture s; active_texture := active_texture s;
     texture_binding_2d := texture_binding_2d s; textures := textures s;
     uniforms := uniforms s |}.

Definition set_unpack_alignment (a : Z) (s : state) : state :=
  {| viewport := viewport s; unpack_alignment := a;
     next_texture := next_texture s; active_texture := active_texture s;
     texture_binding_2d := texture_binding_2d s; textures := textures s;
     uniforms := uniforms s |}.

Definition set_active_texture (u : Z) (s : state) : state :=
  {| viewport := viewport s; unpack_alignment := unpack_alignment s;
     next_texture := next_texture s; active_texture := u;
     texture_binding_2d := texture_binding_2d s; textures := textures s;
     uniforms := uniforms s |}.

Definition set_textures (t : gmap Z (gmap Z image)) (s : state) : state :=
  {| viewport := viewport s; unpack_alignment := unpack_alignment s;
     next_texture := next_texture s; active_texture := active_texture s;
     texture_binding_2d := texture_binding_2d s; textures := t;
     uniforms := uniforms s |}.

Definition set_uniforms (u : gmap Z uniform_value) (s : state) : state :=
  {| viewport := viewport s; unpack_alignment := unpack_alignment s;
     next_texture := next_texture s; active_texture := active_texture s;
     texture_binding_2d := texture_binding_2d s; textures := textures s;
     uniforms := u |}.

Definition glViewport (x y w h : Z) : state -> state :=
  set_viewport (x, y, w, h).

Definition glPixelStorei_UNPACK_ALIGNMENT (a : Z) : state -> state :=
  set_unpack_alignment a.

(** [glGenTextures(1, &name)] *)
Definition glGenTextures (s : state) : Z * state :=
  (next_texture s,
   {| viewport := viewport s; unpack_alignment := unpack_alignment s;
      next_texture := next_texture s + 1;
      active_texture := active_texture s;
      texture_binding_2d := texture_binding_2d s;
      textures := <[next_texture s := ∅]> (textures s);
      uniforms := uniforms s |}).

Definition glActiveTexture (unit : Z) : state -> state :=
  set_active_texture unit.

(** [glBindTexture(GL_TEXTURE_2D, name)] *)
Definition glBindTexture (name : Z) (s : state) : state :=
  {| viewport := viewport s; unpack_alignment := unpack_alignment s;
     next_texture := next_texture s; active_texture := active_texture s;
     texture_binding_2d := <[active_texture s := name]> (texture_binding_2d s);
     textures := textures s; uniforms := uniforms s |}.

(** The texture bound to [GL_TEXTURE_2D] on the active unit. *)
Definition bound (s : state) : option Z :=
  texture_binding_2d s !! active_texture s.

Definition bound_levels (s : state) : gmap Z image :=
  default ∅ (name ← bound s; textures s !! name).

Definition set_bound_levels (lv : gmap Z image) (s : state) : state :=
  match bound s with
  | Some name => set_textures (<[name := lv]> (textures s)) s
  | None => s
  end.

(** The values [GL_UNPACK_ALIGNMENT] can take. *)
Definition valid_alignment (a : Z) : Prop :=
  a = 1 \/ a = 2 \/ a = 4 \/ a = 8.

(** Rows start at multiples of the unpack alignment. *)
Definition stride (alignment w : Z) (f : pixel_format) : Z :=
  let n := w * bytes_per_pixel f in
  (n + alignment - 1) / alignment * alignment.

(** An image of [w] by [h] pixels read from [data] under the given
    unpack alignment. *)
Definition uploaded (alignment w h : Z) (f : pixel_format) (data : list Z)
    : image :=
  {| img_width := w; img_height := h; img_format := f;
     row_stride := stride alignment w f; img_data := data |}.

(** [glTexImage2D(GL_TEXTURE_2D, level, _, w, h, 0, format,
    GL_UNSIGNED_BYTE, data)]: (re)defines one level of the bound texture. *)
Definition glTexImage2D (level w h : Z) (f : pixel_format) (data : list Z)
    (s : state) : state :=
  let im := uploaded (unpack_alignment s) w h f data in
  set_bound_levels (<[level := im]> (bound_levels s)) s.

(** [glTexSubImage2D(GL_TEXTURE_2D, level, 0, 0, w, h, format,
    GL_UNSIGNED_BYTE, data)] for a rectangle that covers the whole level,
    the only use the program makes of it; any other rectangle is rejected
    here. *)
Definition glTexSubImage2D (level w h : Z) (f : pixel_format)
    (data : list Z) (s : state) : state :=
  match bound_levels s !! level with
  | Some old =>
      if (img_width old =? w) && (img_height old =? h)
      then glTexImage2D level w h f data s
      else s
  | None => s
  end.

(** [glGenerateMipmap(GL_TEXTURE_2D)]: levels 1 .. log2(max(w, h)) of the
    bound texture are replaced by images derived from level 0; the filter
    [downsample] is the implementation's choice. *)
Definition glGenerateMipmap (downsample : image -> Z -> image) (s : state)
    : state :=
  let lv := bound_levels s in
  match lv !! 0 with
  | Some base =>
      let n := Z.log2 (Z.max (img_width base) (img_height base)) in
      set_bound_levels
        (foldl (fun m k => <[k := downsample base k]> m) lv (seqZ 1 n)) s
  | None => s
  end.

(** [glUniform1i]; location -1 is silently ignored. *)
Definition glUniform1i (location v : Z) (s : state) : state :=
  if location =? -1 then s
  else set_uniforms (<[location := Int1 v]> (uniforms s)) s.

(** [glUniformMatrix4fv(location, 1, transpose, m)] *)
Definition glUniformMatrix4fv (location : Z) (transpose : bool)
    (m : list F32.t) (s : state) : state :=
  if location =? -1 then s
  else set_uniforms (<[location := Mat4 transpose m]> (uniforms s)) s.

(** Conversions between [GLint] and [GLuint] (32 bits, two's complement). *)
Definition to_GLuint (x : Z) : Z := x mod 2 ^ 32.
Definition to_GLint (x : Z) : Z :=
  let y := x mod 2 ^ 32 in if y <? 2 ^ 31 then y else y - 2 ^ 32.

End GL.

(** ** Texture bank: the checkerboard and its mipmap chain
       (main.cpp, lines 204-233) *)

Module Checkerboard.
Import GL.

(** Byte order in which a [std::uint32_t] lies in memory. *)
Inductive byte_order : Type := LittleEndian | BigEndian.

(** Conversion to [std::uint8_t]. *)
Definition uint8 (n : Z) : Z := n mod 256.

Definition push_back {A} (v : list A) (x : A) : list A := v ++ [x].

(** [for (int i = 0; i < n; i++) body] *)
Definition for_upto {S} (n : Z) (body : Z -> S -> S) (s : S) : S :=
  foldl (fun s i => body i s) s (seqZ 0 n).

Definition img_w : Z := 1024.
Definition img_h : Z := 1024.

(** The body of the inner loop, lines 214-218. *)
Definition put_pixel (x y : Z) (color : list Z) : list Z :=
  let res := Z.rem (x + y) 2 * 255 in
  push_back (push_back (push_back (push_back color (uint8 res))
                          (uint8 res)) (uint8 res)) (uint8 255).

(** The four bytes one inner iteration appends. *)
Definition pixel_bytes (x y : Z) : list Z :=
  let c := uint8 (Z.rem (x + y) 2 * 255) in [c; c; c; uint8 255].

(** The buffer [color] after the two nested loops over a [w] by [h] image. *)
Definition fill (w h : Z) : list Z :=
  for_upto w (fun x color => for_upto h (fun y color => put_pixel x y color) color) [].

Definition color : list Z := fill img_w img_h.

(** The bytes behind [v.data()] for a vector of 32-bit words. *)
Definition word_bytes (o : byte_order) (w : Z) : list Z :=
  let b k := Z.land (Z.shiftr w (8 * k)) 255 in
  match o with
  | LittleEndian => [b 0; b 1; b 2; b 3]
  | BigEndian => [b 3; b 2; b 1; b 0]
  end.

Definition data (o : byte_order) (v : list Z) : list Z :=
  mjoin (word_bytes o <$> v).

Definition red_mipmap : list Z := replicate (Z.to_nat (512 * 512)) 0xff0000ff.
Definition green_mipmap : list Z := replicate (Z.to_nat (256 * 256)) 0xffff0000.
Definition blue_mipmap : list Z := replicate (Z.to_nat (128 * 128)) 0xff00ff00.

(** Lines 204-233.  The two [glTexParameteri] calls pass the texture name
    where the target is expected and so change no state. *)
Definition build_checkerboard (o : byte_order)
    (downsample : image -> Z -> image) (s : state) : Z * state :=
  let '(texture, s) := glGenTextures s in
  let s := glBindTexture texture s in
  let s := glTexImage2D 0 img_w img_h GL_RGBA color s in
  let s := glGenerateMipmap downsample s in
  let s := glTexImage2D 1 512 512 GL_RGBA (data o red_mipmap) s in
  let s := glTexImage2D 2 256 256 GL_RGBA (data o green_mipmap) s in
  let s := glTexImage2D 3 128 128 GL_RGBA (data o blue_mipmap) s in
  (texture, s).

Definition opaque_white : rgba := {| red := 255; green := 255; blue := 255; alpha := 255 |}.
Definition opaque_black : rgba := {| red := 0; green := 0; blue := 0; alpha := 255 |}.
Definition opaque_red : rgba := {| red := 255; green := 0; blue := 0; alpha := 255 |}.
Definition opaque_green : rgba := {| red := 0; green := 255; blue := 0; alpha := 255 |}.
Definition opaque_blue : rgba := {| red := 0; green := 0; blue := 255; alpha := 255 |}.

(** Level [level] of texture [name]. *)
Definition level_of (name level : Z) (s : state) : option image :=
  lv ← textures s !! name; lv !! level.

End Checkerboard.

(** ** View and projection matrices (main.cpp, lines 300-321) *)

Module Projection.

(** [0.1f], [100.f] *)
Definition near : F32.t := Eval vm_compute in F32.lit 1 10.
Definition far : F32.t := Eval vm_compute in F32.of_int 100.
Definition top : F32.t := near.

(** [(top * width) / height], both [int]s converted to [float]. *)
Definition right (width height : Z) : F32.t :=
  F32.div (F32.mul top (F32.of_int width)) (F32.of_int height).

Definition f0 : F32.t := F32.zero.
Definition f1 : F32.t := Eval vm_compute in F32.of_int 1.
Definition f2 : F32.t := Eval vm_compute in F32.of_int 2.
Definition f15 : F32.t := Eval vm_compute in F32.of_int 15.

(** The array [projection], row-major, for a given [right]. *)
Definition matrix (right : F32.t) : list F32.t :=
  [ F32.div near right; f0; f0; f0;
    f0; F32.div near top; f0; f0;
    f0; f0; F32.div (F32.opp (F32.add far near)) (F32.sub far near);
      F32.div (F32.mul (F32.mul (F32.opp f2) far) near) (F32.sub far near);
    f0; f0; F32.opp f1; f0 ].

Definition projection (width height : Z) : list F32.t :=
  matrix (right width height).

(** [M_PI / 6.f]: a division of [double]s, rounded to [float] on
    assignment. *)
Definition M_PI : spec_float := S754_finite false 7074237752028440 (-51).

Definition view_angle : F32.t :=
  Eval vm_compute in
    match SFdiv 53 1024 M_PI (binary_normalize 53 1024 6 0 false) with
    | S754_finite s m e =>
        binary_normalize F32.prec F32.emax (cond_Zopp s (Zpos m)) e s
    | x => x
    end.

(** The array [view]; [cos] and [sin] are the C library's. *)
Definition view (cos sin : F32.t -> F32.t) : list F32.t :=
  [ f1; f0; f0; f0;
    f0; cos view_angle; F32.opp (sin view_angle); f0;
    f0; sin view_angle; cos view_angle; F32.opp f15;
    f0; f0; f0; f1 ].

(** Entry [(i, j)] of a row-major 4x4 array. *)
Definition entry (m : list F32.t) (i j : Z) : option F32.t :=
  m !! Z.to_nat (4 * i + j).

End Projection.

(** ** Exceptions *)

(** The outcome of code that may throw [std::runtime_error]; indexing an
    array outside its bounds has no defined outcome and is kept apart. *)
Inductive result (A : Type) : Type :=
| Ok (a : A)
| Throw (what : string)
| OutOfBounds.

Arguments Ok {A} a.
Arguments Throw {A} what.
Arguments OutOfBounds {A}.

Definition bind {A B} (m : result A) (k : A -> result B) : result B :=
  match m with
  | Ok a => k a
  | Throw what => Throw what
  | OutOfBounds => OutOfBounds
  end.

Notation "x <-! m ; k" := (bind m (fun x => k))
  (at level 100, m at next level, right associativity, only parsing).
Notation "m ;;! k" := (bind m (fun _ : unit => k))
  (at level 100, right associativity, only parsing).

(** [if (c) body;] where [body] returns nothing. *)
Definition when (c : bool) (body : result unit) : result unit :=
  if c then body else Ok tt.

(** [a[i]] for a C array. *)
Definition array_at {A} (a : list A) (i : Z) : result A :=
  if i <? 0 then OutOfBounds
  else match a !! Z.to_nat i with
       | Some x => Ok x
       | None => OutOfBounds
       end.

(** The characters of a [const char *] up to its terminating NUL, which is
    what [operator<<] prints of [e.what()]. *)
Fixpoint c_str (s : string) : string :=
  match s with
  | EmptyString => EmptyString
  | String c rest =>
      if Ascii.eqb c Ascii.zero then EmptyString else String c (c_str rest)
  end.

(** [std::endl] *)
Definition endl : string := String (ascii_of_nat 10) EmptyString.

(** ** The program (main.cpp, lines 19-32, 68-105 and 138-355) *)

Module App.
Import GL.

Inductive shader_type : Type := GL_VERTEX_SHADER | GL_FRAGMENT_SHADER.

(** What the window system, the driver and the C library answer. *)
Record platform : Type := {
  SDL_Init : Z;
  SDL_CreateWindow : bool;
  SDL_GetWindowSize : Z * Z;
  SDL_GL_CreateContext : bool;
  SDL_GetError : string;
  glewInit : Z;
  glewGetErrorString : Z -> string;
  GLEW_VERSION_3_3 : bool;
  glCreateShader : shader_type -> Z;
  GL_COMPILE_STATUS : shader_type -> bool;
  shader_info_log : shader_type -> string;
  glCreateProgram : Z;
  GL_LINK_STATUS : bool;
  program_info_log : string;
  glGetUniformLocation : string -> Z;
  downsample : image -> Z -> image;
  byte_order : Checkerboard.byte_order;
  cos : F32.t -> F32.t;
  sin : F32.t -> F32.t
}.

Definition GLEW_NO_ERROR : Z := 0.
Definition EXIT_FAILURE : Z := 1.

Definition sdl2_fail (p : platform) (message : string) : result unit :=
  Throw (message +:+ SDL_GetError p).

Definition glew_fail (p : platform) (message : string) (error : Z)
    : result unit :=
  Throw (message +:+ glewGetErrorString p error).

Definition create_shader (p : platform) (type : shader_type) : result Z :=
  let result := glCreateShader p type in
  if negb (GL_COMPILE_STATUS p type) then
    Throw ("Shader compilation failed: " +:+ shader_info_log p type)
  else Ok result.

Definition create_program (p : platform) (vertex_shader fragment_shader : Z)
    : result Z :=
  let result := glCreateProgram p in
  if negb (GL_LINK_STATUS p) then
    Throw ("Program linkage failed: " +:+ program_info_log p)
  else Ok result.

Inductive SDL_WindowEventID : Type :=
| SDL_WINDOWEVENT_RESIZED
| SDL_WINDOWEVENT_other.

Inductive SDL_Event : Type :=
| SDL_QUIT
| SDL_WINDOWEVENT (event : SDL_WindowEventID) (data1 data2 : Z)
| SDL_KEYDOWN (sym : Z)
| SDL_KEYUP (sym : Z)
| SDL_other.

(** Locals of [main] that are set once, before the loop. *)
Record resources : Type := {
  program : Z;
  view_location : Z;
  projection_location : Z;
  tex_location : Z;
  tex_img_location : Z;
  texture : Z;
  tex_img : Z
}.

(** Locals of [main] that the loop changes, and the OpenGL state. *)
Record app : Type := {
  width : Z;
  height : Z;
  clk : Clock.clock;
  button_down : gmap Z bool;
  running : bool;
  gl : GL.state
}.

Definition set_size (w h : Z) (a : app) : app :=
  {| width := w; height := h; clk := clk a; button_down := button_down a;
     running := running a; gl := gl a |}.

Definition set_running (b : bool) (a : app) : app :=
  {| width := width a; height := height a; clk := clk a;
     button_down := button_down a; running := b; gl := gl a |}.

Definition set_button_down (m : gmap Z bool) (a : app) : app :=
  {| width := width a; height := height a; clk := clk a;
     button_down := m; running := running a; gl := gl a |}.

Definition set_gl (g : GL.state) (a : app) : app :=
  {| width := width a; height := height a; clk := clk a;
     button_down := button_down a; running := running a; gl := g |}.

Definition set_clk (c : Clock.clock) (a : app) : app :=
  {| width := width a; height := height a; clk := c;
     button_down := button_down a; running := running a; gl := gl a |}.

(** The [switch (event.type)] of lines 258-278. *)
Definition handle_event (event : SDL_Event) (a : app) : app :=
  match event with
  | SDL_QUIT => set_running false a
  | SDL_WINDOWEVENT SDL_WINDOWEVENT_RESIZED data1 data2 =>
      let a := set_size data1 data2 a in
      set_gl (glViewport 0 0 (width a) (height a) (gl a)) a
  | SDL_WINDOWEVENT SDL_WINDOWEVENT_other _ _ => a
  | SDL_KEYDOWN sym => set_button_down (<[sym := true]> (button_down a)) a
  | SDL_KEYUP sym => set_button_down (<[sym := false]> (button_down a)) a
  | SDL_other => a
  end.

(** [for (SDL_Event event; SDL_PollEvent(&event);) ...] over the events
    pending at this iteration. *)
Definition poll_events (events : list SDL_Event) (a : app) : app :=
  foldl (fun a event => handle_event event a) a events.

(** The projection array the coming frame builds. *)
Definition frame_projection (a : app) : list F32.t :=
  Projection.projection (width a) (height a).

(** Lines 283-345: one frame, [dt] seconds after the previous one.
    Clearing, drawing and swapping leave the modelled state alone, and the
    one program there is stays in use. *)
Definition frame (p : platform) (r : resources)
    (test_image_data : list (list Z)) (dt : F32.t) (a : app) : result app :=
  let a := set_clk (Clock.step dt (clk a)) a in
  let view := Projection.view (cos p) (sin p) in
  let projection := frame_projection a in
  let g := gl a in
  let g := glUniformMatrix4fv (to_GLint (view_location r)) true view g in
  let g := glUniformMatrix4fv (to_GLint (projection_location r)) true
             projection g in
  let g := glUniform1i (to_GLint (tex_location r)) 0 g in
  let g := glUniform1i (to_GLint (tex_img_location r)) 1 g in
  let g := glActiveTexture 0 g in
  let g := glBindTexture (texture r) g in
  let g := glActiveTexture 1 g in
  let g := glBindTexture (tex_img r) g in
  if Clock.curr_frame_changed (clk a) then
    let g := glPixelStorei_UNPACK_ALIGNMENT 1 g in
    pixels <-! array_at test_image_data (Clock.curr_frame (clk a));
    let g := glTexSubImage2D 0 498 498 GL_RGB pixels g in
    let g := glGenerateMipmap (downsample p) g in
    Ok (set_gl g a)
  else Ok (set_gl g a).

(** How the [while (running)] loop stands once the given iterations, each
    with its pending events and its frame time, are consumed. *)
Inductive loop_state : Type :=
| Stopped (a : app)
| Looping (a : app).

Fixpoint main_loop (p : platform) (r : resources)
    (test_image_data : list (list Z))
    (input : list (list SDL_Event * F32.t)) (a : app) : result loop_state :=
  match input with
  | [] => Ok (Looping a)
  | (events, dt) :: rest =>
      let a := poll_events events a in
      if negb (running a) then Ok (Stopped a)
      else
        a <-! frame p r test_image_data dt a;
        main_loop p r test_image_data rest a
  end.

(** The sampler uniforms of a freshly linked program hold 0. *)
Definition glLinkProgram (p : platform) (s : GL.state) : GL.state :=
  glUniform1i (glGetUniformLocation p "img") 0
    (glUniform1i (glGetUniformLocation p "tex") 0 s).

(** Lines 140-253: everything before the loop.  The vertex array and the
    two buffers are created and filled here but never read back. *)
Definition setup (p : platform) (test_image_data : list (list Z))
    : result (resources * app) :=
  when (negb (SDL_Init p =? 0)) (sdl2_fail p "SDL_Init: ") ;;!
  when (negb (SDL_CreateWindow p)) (sdl2_fail p "SDL_CreateWindow: ") ;;!
  let '(width, height) := SDL_GetWindowSize p in
  when (negb (SDL_GL_CreateContext p))
    (sdl2_fail p "SDL_GL_CreateContext: ") ;;!
  when (negb (glewInit p =? GLEW_NO_ERROR))
    (glew_fail p "glewInit: " (glewInit p)) ;;!
  when (negb (GLEW_VERSION_3_3 p)) (Throw "OpenGL 3.3 is not supported") ;;!
  vertex_shader <-! create_shader p GL_VERTEX_SHADER;
  fragment_shader <-! create_shader p GL_FRAGMENT_SHADER;
  program <-! create_program p vertex_shader fragment_shader;
  let g := glLinkProgram p (GL.initial width height) in
  let view_location := to_GLuint (glGetUniformLocation p "view") in
  let projection_location :=
    to_GLuint (glGetUniformLocation p "projection") in
  let tex_location := to_GLuint (glGetUniformLocation p "tex") in
  let tex_img_location := to_GLuint (glGetUniformLocation p "tex") in
  let '(texture, g) :=
    Checkerboard.build_checkerboard (byte_order p) (downsample p) g in
  let '(tex_img, g) := glGenTextures g in
  let g := glBindTexture tex_img g in
  let g := glPixelStorei_UNPACK_ALIGNMENT 1 g in
  pixels <-! array_at test_image_data 0;
  let g := glTexImage2D 0 498 498 GL_RGB pixels g in
  let g := glGenerateMipmap (downsample p) g in
  Ok ({| program := program;
         view_location := view_location;
         projection_location := projection_location;
         tex_location := tex_location;
         tex_img_location := tex_img_location;
         texture := texture;
         tex_img := tex_img |},
      {| width := width; height := height; clk := Clock.init;
         button_down := ∅; running := true; gl := g |}).

(** What the process leaves behind. *)
Inductive exit : Type :=
| Exit (status : Z) (cerr : string)
| StillRunning
| Undefined.

(** [int main() try { ... } catch (std::exception const & e) { ... }];
    control reaching the end of [main] returns 0. *)
Definition main (p : platform) (test_image_data : list (list Z))
    (input : list (list SDL_Event * F32.t)) : exit :=
  match
    (ra <-! setup p test_image_data;
     main_loop p (fst ra) test_image_data input (snd ra))
  with
  | Ok (Stopped _) => Exit 0 EmptyString
  | Ok (Looping _) => StillRunning
  | Throw what => Exit EXIT_FAILURE (c_str what +:+ endl)
  | OutOfBounds => Undefined
  end.

(** The states in which the loop can stand at the top of an iteration. *)
Inductive reachable (p : platform) (test_image_data : list (list Z))
    (r : resources) : app -> Prop :=
| reach_setup a :
    setup p test_image_data = Ok (r, a) ->
    reachable p test_image_data r a
| reach_frame a events dt a' :
    reachable p test_image_data r a ->
    running (poll_events events a) = true ->
    frame p r test_image_data dt (poll_events events a) = Ok a' ->
    reachable p test_image_data r a'.

(** The four uniforms of the two shaders are all in use, so that the
    linker gives them four different non-negative locations. *)
Definition uniform_names : list string :=
  ["view"; "projection"; "tex"; "img"]%string.

Definition active_uniforms (p : platform) : Prop :=
  NoDup (glGetUniformLocation p <$> uniform_names) /\
  Forall (fun name => 0 <= glGetUniformLocation p name < 2 ^ 31)
    uniform_names.

(** Every check of the setup passes. *)
Definition setup_succeeds (p : platform) : Prop :=
  SDL_Init p = 0 /\ SDL_CreateWindow p = true /\
  SDL_GL_CreateContext p = true /\ glewInit p = GLEW_NO_ERROR /\
  GLEW_VERSION_3_3 p = true /\
  GL_COMPILE_STATUS p GL_VERTEX_SHADER = true /\
  GL_COMPILE_STATUS p GL_FRAGMENT_SHADER = true /\
  GL_LINK_STATUS p = true.

(** Some iteration of the input sees the window being closed. *)
Definition closes (input : list (list SDL_Event * F32.t)) : Prop :=
  Exists (fun it => SDL_QUIT ∈ fst it) input.

(** A platform on which every step of the setup succeeds, with an
    800x600 window. *)
Definition working_platform : platform :=
  {| SDL_Init := 0;
     SDL_CreateWindow := true;
     SDL_GetWindowSize := (800, 600);
     SDL_GL_CreateContext := true;
     SDL_GetError := EmptyString;
     glewInit := 0;
     glewGetErrorString := fun _ => EmptyString;
     GLEW_VERSION_3_3 := true;
     glCreateShader := fun type =>
       match type with GL_VERTEX_SHADER => 1 | GL_FRAGMENT_SHADER => 2 end;
     GL_COMPILE_STATUS := fun _ => true;
     shader_info_log := fun _ => EmptyString;
     glCreateProgram := 3;
     GL_LINK_STATUS := true;
     program_info_log := EmptyString;
     glGetUniformLocation := fun name =>
       if String.eqb name "view" then 0
       else if String.eqb name "projection" then 1
       else if String.eqb name "tex" then 2
       else if String.eqb name "img" then 3
       else -1;
     downsample := fun im _ => im;
     byte_order := Checkerboard.LittleEndian;
     cos := fun x => x;
     sin := fun x => x |}.

(** The same platform with no video driver: [SDL_Init] fails. *)
Definition headless_platform : platform :=
  {| SDL_Init := -1;
     SDL_CreateWindow := false;
     SDL_GetWindowSize := (0, 0);
     SDL_GL_CreateContext := false;
     SDL_GetError := "No available video device";
     glewInit := 1;
     glewGetErrorString := fun _ => EmptyString;
     GLEW_VERSION_3_3 := false;
     glCreateShader := fun _ => 0;
     GL_COMPILE_STATUS := fun _ => false;
     shader_info_log := fun _ => EmptyString;
     glCreateProgram := 0;
     GL_LINK_STATUS := false;
     program_info_log := EmptyString;
     glGetUniformLocation := fun _ => -1;
     downsample := fun im _ => im;
     byte_order := Checkerboard.LittleEndian;
     cos := fun x => x;
     sin := fun x => x |}.

(** A table of fifteen (empty) frames, standing in for the asset. *)
Definition blank_frames : list (list Z) := replicate 15 [].

End App.

(** ** Reading a run of the loop off its input *)

Module Trace.
Import GL App.

Definition is_quit (event : SDL_Event) : bool :=
  match event with SDL_QUIT => true | _ => false end.

(** Whether a batch of pending events holds an [SDL_QUIT]. *)
Definition polls_quit (events : list SDL_Event) : bool :=
  existsb is_quit events.

(** The frame times of the iterations that get to render: those before the
    first batch that holds an [SDL_QUIT]. *)
Fixpoint rendered (input : list (list SDL_Event * F32.t)) : list F32.t :=
  match input with
  | [] => []
  | (events, dt) :: rest =>
      if polls_quit events then [] else dt :: rendered rest
  end.

(** What the last key event for [sym] in a batch says, if there is one. *)
Fixpoint last_key (sym : Z) (events : list SDL_Event) : option bool :=
  match events with
  | [] => None
  | event :: rest =>
      match last_key sym rest with
      | Some b => Some b
      | None =>
          match event with
          | SDL_KEYDOWN s => if s =? sym then Some true else None
          | SDL_KEYUP s => if s =? sym then Some false else None
          | _ => None
          end
      end
  end.

(** The size the last resize event of a batch carries, if there is one. *)
Fixpoint last_resize (events : list SDL_Event) : option (Z * Z) :=
  match events with
  | [] => None
  | event :: rest =>
      match last_resize rest with
      | Some size => Some size
      | None =>
          match event with
          | SDL_WINDOWEVENT SDL_WINDOWEVENT_RESIZED data1 data2 =>
              Some (data1, data2)
          | _ => None
          end
      end
  end.

(** No NUL character in a string. *)
Fixpoint nul_free (s : string) : bool :=
  match s with
  | EmptyString => true
  | String c rest => negb (Ascii.eqb c Ascii.zero) && nul_free rest
  end.

(** The messages the setup can throw, in the order of its checks. *)
Definition setup_messages (p : platform) : list string :=
  [ "SDL_Init: " +:+ SDL_GetError p;
    "SDL_CreateWindow: " +:+ SDL_GetError p;
    "SDL_GL_CreateContext: " +:+ SDL_GetError p;
    "glewInit: " +:+ glewGetErrorString p (glewInit p);
    "OpenGL 3.3 is not supported"%string;
    "Shader compilation failed: " +:+ shader_info_log p GL_VERTEX_SHADER;
    "Shader compilation failed: " +:+ shader_info_log p GL_FRAGMENT_SHADER;
    "Program linkage failed: " +:+ program_info_log p ].

(** The state a run of the loop stands in. *)
Definition final (st : loop_state) : app :=
  match st with Stopped a => a | Looping a => a end.

(** Whether some batch of the input holds an [SDL_QUIT]. *)
Definition quits (input : list (list SDL_Event * F32.t)) : bool :=
  existsb (fun it => polls_quit (fst it)) input.

(** The state of the OpenGL context when the setup has linked the program
    and is about to build the checkerboard. *)
Definition linked (p : platform) : GL.state :=
  glLinkProgram p
    (GL.initial (fst (SDL_GetWindowSize p)) (snd (SDL_GetWindowSize p))).

(** The animated texture holds, at level 0 and with tightly packed rows,
    the frame of the table the counter stands at. *)
Definition shows_frame (test_image_data : list (list Z)) (r : resources)
    (a : app) : Prop :=
  exists pixels,
    array_at test_image_data (Clock.curr_frame (clk a)) = Ok pixels /\
    Checkerboard.level_of (tex_img r) 0 (gl a) =
      Some (uploaded 1 498 498 GL_RGB pixels).

(** The texture unit a sampler uniform of the program holds. *)
Definition sampler_unit (p : platform) (name : string) (g : GL.state)
    : option Z :=
  match uniforms g !! glGetUniformLocation p name with
  | Some (Int1 unit) => Some unit
  | _ => None
  end.

(** The texture a sampler reads: the one bound on its unit. *)
Definition sampler_texture (p : platform) (name : string) (g : GL.state)
    : option Z :=
  unit ← sampler_unit p name g; texture_binding_2d g !! unit.

(** The window state and the viewport agree. *)
Definition viewport_fits (a : app) : Prop :=
  viewport (gl a) = (0, 0, width a, height a).

End Trace.

(** * Properties *)

Section ClockFacts.
Import Clock.

Lemma step_time dt c : time (step dt c) = F32.add (time c) dt.
Proof. unfold step. destruct (F32.geb _ _); reflexivity. Qed.

Lemma step_changed dt c : curr_frame_changed (step dt c) = due dt c.
Proof. unfold step, due. destruct (F32.geb _ _); reflexivity. Qed.

Lemma step_frame dt c :
  curr_frame (step dt c) =
    if due dt c
    then (if 15 <=? curr_frame c + 1 then 0 else curr_frame c + 1)
    else curr_frame c.
Proof. unfold step, due. destruct (F32.geb _ _); reflexivity. Qed.

Lemma step_frame_mod dt c :
  0 <= curr_frame c < 15 ->
  curr_frame (step dt c) =
    if due dt c then (curr_frame c + 1) mod 15 else curr_frame c.
Proof.
  intros Hc. rewrite step_frame.
  destruct (due dt c); [|reflexivity].
  destruct (Z.leb_spec 15 (curr_frame c + 1)).
  - replace (curr_frame c + 1) with 15 by lia. reflexivity.
  - symmetry. apply Z.mod_small. lia.
Qed.

Lemma step_bounded dt c :
  0 <= curr_frame c < 15 -> 0 <= curr_frame (step dt c) < 15.
Proof.
  intros Hc. rewrite step_frame.
  destruct (due dt c); [|exact Hc].
  destruct (Z.leb_spec 15 (curr_frame c + 1)); lia.
Qed.

Lemma run_bounded dts : forall c,
  0 <= curr_frame c < 15 -> 0 <= curr_frame (run dts c) < 15.
Proof.
  induction dts as [|dt rest IH]; intros c Hc; simpl; [exact Hc|].
  apply IH, step_bounded, Hc.
Qed.

Lemma init_bounded : 0 <= curr_frame init < 15.
Proof. simpl. lia. Qed.

Lemma run_advances dts : forall c,
  0 <= curr_frame c < 15 ->
  curr_frame (run dts c) = (curr_frame c + advances dts c) mod 15.
Proof.
  induction dts as [|dt rest IH]; intros c Hc; simpl.
  - rewrite Z.add_0_r. symmetry. apply Z.mod_small. exact Hc.
  - rewrite (IH _ (step_bounded dt c Hc)).
    rewrite (step_frame_mod dt c Hc).
    destruct (due dt c).
    + rewrite Z.add_mod_idemp_l by lia. f_equal. lia.
    + reflexivity.
Qed.

Lemma step_changed_iff dt c :
  0 <= curr_frame c < 15 ->
  curr_frame_changed (step dt c) = true <->
  curr_frame (step dt c) <> curr_frame c.
Proof.
  intros Hc. rewrite step_changed, step_frame.
  destruct (due dt c).
  - split; [intros _|reflexivity].
    destruct (Z.leb_spec 15 (curr_frame c + 1)); lia.
  - split; [discriminate|intros H; contradiction H; reflexivity].
Qed.

(** C1, as stated, fails.  Fifty iterations of 0.016 s each poll more
    often than the 0.05 s tick; the accumulated time is just below 0.8 s,
    where the closed formula gives 0 (and 1 at 0.8 s itself), but the
    clock has advanced on every fourth iteration only and stands at 12. *)
Lemma C1_formula_fails_at_60fps :
  Forall (fun dt => F32.leb dt tick = true) (scenario_60fps 50) /\
  F32.to_Q (time (run (scenario_60fps 50) init)) =
    Some (13421765 # 16777216) /\
  spec_frame_index (13421765 # 16777216) = 0 /\
  spec_frame_index (4 # 5) = 1 /\
  curr_frame (run (scenario_60fps 50) init) = 12 /\
  curr_frame (run (scenario_60fps 50) init) <>
    spec_frame_index (13421765 # 16777216) /\
  curr_frame (run (scenario_60fps 50) init) <> spec_frame_index (4 # 5).
Proof.
  split.
  { apply Forall_forall. intros dt Hdt.
    apply elem_of_replicate in Hdt as [-> _]. vm_compute. reflexivity. }
  assert (Hq : spec_frame_index (13421765 # 16777216) = 0)
    by (vm_compute; reflexivity).
  assert (Hn : spec_frame_index (4 # 5) = 1) by (vm_compute; reflexivity).
  assert (Hrun : curr_frame (run (scenario_60fps 50) init) = 12)
    by (vm_compute; reflexivity).
  rewrite Hq, Hn, Hrun.
  split; [vm_compute; reflexivity|].
  do 3 (split; [reflexivity|]). split; discriminate.
Qed.

(** C1, amended: the frame index is the number of iterations on which
    [time - prev_time >= 0.05f] held, modulo 15; with 0.016 s steps from
    zero that is every fourth iteration, so that after [n <= 50] steps
    the index is [n / 4] (12 at 0.8 s) and [curr_frame_changed] is set
    exactly on the iterations 4, 8, ..., 48. *)
Theorem C1_frame_index_counts_advances :
  (forall dts, curr_frame (run dts init) = advances dts init mod 15) /\
  Forall (fun n =>
            let c := run (scenario_60fps n) init in
            curr_frame c = Z.of_nat n / 4 /\
            curr_frame_changed c =
              (0 <? Z.of_nat n) && (Z.of_nat n mod 4 =? 0))
         (seq 0 51).
Proof.
  split.
  - intros dts. rewrite (run_advances dts init init_bounded). reflexivity.
  - assert (Hall : forallb (fun n =>
        let c := run (scenario_60fps n) init in
        (curr_frame c =? Z.of_nat n / 4) &&
        Bool.eqb (curr_frame_changed c)
          ((0 <? Z.of_nat n) && (Z.of_nat n mod 4 =? 0))) (seq 0 51) = true)
      by (vm_compute; reflexivity).
    rewrite forallb_forall in Hall.
    apply Forall_forall. intros n Hn.
    apply list_elem_of_In, Hall in Hn. cbv zeta in Hn.
    apply andb_prop in Hn as [Hf Hc].
    split; [apply Z.eqb_eq, Hf | apply Bool.eqb_prop, Hc].
Qed.

(** C3: on every iteration the index moves by one step, wrapping from 14
    to 0, exactly when [time - prev_time >= 0.05f], and stays put
    otherwise; it never leaves [0, 15).  A stall of a whole second still
    advances it by one. *)
Theorem C3_one_advance_per_iteration (dts : list F32.t) (dt : F32.t) :
  let c := run dts init in
  let c' := step dt c in
  let elapsed := F32.sub (time c') (prev_time c) in
  curr_frame c' =
    (if F32.geb elapsed tick
     then (if curr_frame c =? 14 then 0 else curr_frame c + 1)
     else curr_frame c) /\
  curr_frame c' =
    (if F32.geb elapsed tick then (curr_frame c + 1) mod 15
     else curr_frame c) /\
  0 <= curr_frame c' < 15 /\
  curr_frame (step (F32.of_int 1) init) = 1.
Proof.
  intros c c' elapsed.
  assert (Hc : 0 <= curr_frame c < 15) by apply run_bounded, init_bounded.
  assert (Hdue : F32.geb elapsed tick = due dt c).
  { unfold elapsed, c'. rewrite step_time. reflexivity. }
  rewrite Hdue. unfold c'.
  split; [|split; [|split]].
  - rewrite step_frame. destruct (due dt c); [|reflexivity].
    destruct (Z.leb_spec 15 (curr_frame c + 1)),
      (Z.eqb_spec (curr_frame c) 14); lia.
  - apply step_frame_mod, Hc.
  - apply step_bounded, Hc.
  - vm_compute. reflexivity.
Qed.

(** C7: after any run of the loop, the next iteration sets
    [curr_frame_changed] if and only if it leaves [curr_frame] different
    from what the previous iteration left. *)
Theorem C7_frame_changed_iff_index_differs (dts : list F32.t) (dt : F32.t) :
  let c := run dts init in
  curr_frame_changed (step dt c) = true <->
  curr_frame (step dt c) <> curr_frame c.
Proof.
  intros c. apply step_changed_iff, run_bounded, init_bounded.
Qed.

End ClockFacts.

Section CheckerboardFacts.
Import GL Checkerboard.

Lemma for_upto_append {A} (g : Z -> list A) (body : Z -> list A -> list A) :
  (forall i s, body i s = s ++ g i) ->
  forall n s, for_upto n body s = s ++ mjoin (g <$> seqZ 0 n).
Proof.
  intros Hbody n s. unfold for_upto.
  generalize (seqZ 0 n) as l. intros l. revert s.
  induction l as [|i l IH]; intros s; csimpl.
  - by rewrite app_nil_r.
  - rewrite IH, Hbody. by rewrite <- app_assoc.
Qed.

Lemma put_pixel_append x y color :
  put_pixel x y color = color ++ pixel_bytes x y.
Proof.
  unfold put_pixel, push_back, pixel_bytes.
  by rewrite <- !app_assoc.
Qed.

Lemma fill_rows w h :
  fill w h =
    mjoin ((fun x => mjoin (pixel_bytes x <$> seqZ 0 h)) <$> seqZ 0 w).
Proof.
  unfold fill.
  rewrite (for_upto_append (fun x => mjoin (pixel_bytes x <$> seqZ 0 h))).
  - reflexivity.
  - intros x s. apply for_upto_append. intros y s'. apply put_pixel_append.
Qed.

Lemma row_length x h :
  length (mjoin (pixel_bytes x <$> seqZ 0 h)) = (Z.to_nat h * 4)%nat.
Proof.
  rewrite length_join, (sum_list_fmap_same 4).
  - by rewrite length_fmap, length_seqZ.
  - apply Forall_fmap, Forall_forall. intros y _. reflexivity.
Qed.

Lemma fill_length w h : length (fill w h) = (Z.to_nat w * (Z.to_nat h * 4))%nat.
Proof.
  rewrite fill_rows, length_join, (sum_list_fmap_same (Z.to_nat h * 4)).
  - by rewrite length_fmap, length_seqZ.
  - apply Forall_fmap, Forall_forall. intros x _. apply row_length.
Qed.

Lemma fill_lookup_nat w h (i j k : nat) :
  Z.of_nat i < w -> Z.of_nat j < h -> (k < 4)%nat ->
  fill w h !! (i * (Z.to_nat h * 4) + (j * 4 + k))%nat =
    pixel_bytes (Z.of_nat i) (Z.of_nat j) !! k.
Proof.
  intros Hi Hj Hk.
  destruct (pixel_bytes (Z.of_nat i) (Z.of_nat j) !! k) as [b|] eqn:Hb.
  2:{ apply lookup_ge_None in Hb. simpl in Hb. lia. }
  rewrite fill_rows.
  apply (join_lookup_Some_same_length' (Z.to_nat h * 4)).
  - apply Forall_fmap, Forall_forall. intros x _. apply row_length.
  - lia.
  - eexists. split.
    + rewrite list_lookup_fmap, lookup_seqZ_lt by lia. reflexivity.
    + apply (join_lookup_Some_same_length' 4).
      * apply Forall_fmap, Forall_forall. intros y _. reflexivity.
      * exact Hk.
      * eexists. split; [|exact Hb].
        rewrite list_lookup_fmap, lookup_seqZ_lt by lia. reflexivity.
Qed.

(** Byte [k] of the pixel written by iteration [(x, y)] of the loops. *)
Lemma fill_lookup w h x y k :
  0 <= x < w -> 0 <= y < h -> 0 <= k < 4 ->
  byte_at (fill w h) (x * (h * 4) + y * 4 + k) =
    pixel_bytes x y !! Z.to_nat k.
Proof.
  intros Hx Hy Hk. unfold byte_at.
  destruct (Z.ltb_spec (x * (h * 4) + y * 4 + k) 0); [nia|].
  replace (Z.to_nat (x * (h * 4) + y * 4 + k))
    with (Z.to_nat x * (Z.to_nat h * 4) + (Z.to_nat y * 4 + Z.to_nat k))%nat
    by nia.
  rewrite fill_lookup_nat by lia.
  by rewrite !Z2Nat.id by lia.
Qed.

Lemma pixel_bytes_color x y :
  0 <= x -> 0 <= y ->
  pixel_bytes x y =
    if (x + y) mod 2 =? 1 then [255; 255; 255; 255] else [0; 0; 0; 255].
Proof.
  intros Hx Hy. unfold pixel_bytes, uint8.
  rewrite Z.rem_mod_nonneg by lia.
  assert (H2 : (x + y) mod 2 = 0 \/ (x + y) mod 2 = 1)
    by (pose proof (Z.mod_pos_bound (x + y) 2); lia).
  destruct H2 as [-> | ->]; reflexivity.
Qed.

End CheckerboardFacts.

Section TextureFacts.
Import GL Checkerboard.

Lemma level_of_bound name level s :
  bound s = Some name -> level_of name level s = bound_levels s !! level.
Proof.
  intros Hb. unfold level_of, bound_levels. rewrite Hb. simpl.
  destruct (textures s !! name); reflexivity.
Qed.

Lemma bound_levels_set name lv s :
  bound s = Some name -> bound_levels (set_bound_levels lv s) = lv.
Proof.
  intros Hb. unfold set_bound_levels. rewrite Hb.
  unfold bound_levels, bound in *. simpl. rewrite Hb. simpl.
  by rewrite lookup_insert_eq.
Qed.

Lemma bound_set_levels lv s : bound (set_bound_levels lv s) = bound s.
Proof.
  unfold set_bound_levels. destruct (bound s) eqn:Hb; [|by rewrite Hb].
  rewrite <- Hb. reflexivity.
Qed.

Lemma alignment_set_levels lv s :
  unpack_alignment (set_bound_levels lv s) = unpack_alignment s.
Proof. unfold set_bound_levels. destruct (bound s); reflexivity. Qed.

Lemma glTexImage2D_bound level w h f data s :
  bound (glTexImage2D level w h f data s) = bound s.
Proof. apply bound_set_levels. Qed.

Lemma glTexImage2D_alignment level w h f data s :
  unpack_alignment (glTexImage2D level w h f data s) = unpack_alignment s.
Proof. apply alignment_set_levels. Qed.

Lemma glTexImage2D_levels name level w h f data s :
  bound s = Some name ->
  bound_levels (glTexImage2D level w h f data s) =
    <[level := uploaded (unpack_alignment s) w h f data]> (bound_levels s).
Proof. intros Hb. unfold glTexImage2D. by rewrite (bound_levels_set name). Qed.

Lemma glGenerateMipmap_bound d s : bound (glGenerateMipmap d s) = bound s.
Proof.
  unfold glGenerateMipmap. destruct (bound_levels s !! 0); [|reflexivity].
  apply bound_set_levels.
Qed.

Lemma glGenerateMipmap_alignment d s :
  unpack_alignment (glGenerateMipmap d s) = unpack_alignment s.
Proof.
  unfold glGenerateMipmap. destruct (bound_levels s !! 0); [|reflexivity].
  apply alignment_set_levels.
Qed.

Lemma insert_levels_base (f : Z -> image) (l : list Z) :
  Forall (fun k => k <> 0) l ->
  forall m : gmap Z image,
    foldl (fun m k => <[k := f k]> m) m l !! 0 = m !! 0.
Proof.
  induction 1 as [|k l Hk _ IH]; intros m; simpl; [reflexivity|].
  rewrite IH. by rewrite lookup_insert_ne.
Qed.

(** Generating the mipmap chain leaves level 0 as it is. *)
Lemma glGenerateMipmap_base name d s :
  bound s = Some name ->
  bound_levels (glGenerateMipmap d s) !! 0 = bound_levels s !! 0.
Proof.
  intros Hb. unfold glGenerateMipmap.
  destruct (bound_levels s !! 0) as [base|] eqn:Hbase; [|exact Hbase].
  rewrite (bound_levels_set name) by exact Hb.
  rewrite insert_levels_base; [exact Hbase|].
  apply Forall_forall. intros k Hk. apply elem_of_seqZ in Hk. lia.
Qed.

Lemma glGenTextures_bind s :
  bound (glBindTexture (fst (glGenTextures s)) (snd (glGenTextures s))) =
    Some (next_texture s).
Proof. unfold bound. simpl. by rewrite lookup_insert_eq. Qed.

(** The four levels [build_checkerboard] leaves in its texture, whatever
    mipmap generation had put in levels 1 to 3. *)
Lemma build_checkerboard_levels o d s :
  let r := build_checkerboard o d s in
  let a := unpack_alignment s in
  level_of (fst r) 0 (snd r) = Some (uploaded a 1024 1024 GL_RGBA color) /\
  level_of (fst r) 1 (snd r) =
    Some (uploaded a 512 512 GL_RGBA (data o red_mipmap)) /\
  level_of (fst r) 2 (snd r) =
    Some (uploaded a 256 256 GL_RGBA (data o green_mipmap)) /\
  level_of (fst r) 3 (snd r) =
    Some (uploaded a 128 128 GL_RGBA (data o blue_mipmap)).
Proof.
  intros r a. unfold r, build_checkerboard. clear r.
  generalize color, (data o red_mipmap), (data o green_mipmap),
    (data o blue_mipmap).
  intros c0 c1 c2 c3.
  pose proof (glGenTextures_bind s) as Hb.
  destruct (glGenTextures s) as [texture s1] eqn:Hgen.
  assert (Hal : unpack_alignment s1 = a)
    by (unfold glGenTextures in Hgen; by inversion Hgen).
  simpl in Hb. cbn [fst snd].
  set (s2 := glBindTexture texture s1) in *.
  assert (Hal2 : unpack_alignment s2 = a) by exact Hal.
  set (s3 := glTexImage2D 0 img_w img_h GL_RGBA c0 s2).
  set (s4 := glGenerateMipmap d s3).
  set (s5 := glTexImage2D 1 512 512 GL_RGBA c1 s4).
  set (s6 := glTexImage2D 2 256 256 GL_RGBA c2 s5).
  set (s7 := glTexImage2D 3 128 128 GL_RGBA c3 s6).
  assert (Hb3 : bound s3 = Some (next_texture s))
    by (unfold s3; by rewrite glTexImage2D_bound).
  assert (Hb4 : bound s4 = Some (next_texture s))
    by (unfold s4; by rewrite glGenerateMipmap_bound).
  assert (Hb5 : bound s5 = Some (next_texture s))
    by (unfold s5; by rewrite glTexImage2D_bound).
  assert (Hb6 : bound s6 = Some (next_texture s))
    by (unfold s6; by rewrite glTexImage2D_bound).
  assert (Hb7 : bound s7 = Some (next_texture s))
    by (unfold s7; by rewrite glTexImage2D_bound).
  assert (Ha3 : unpack_alignment s3 = a)
    by (unfold s3; by rewrite glTexImage2D_alignment).
  assert (Ha4 : unpack_alignment s4 = a)
    by (unfold s4; by rewrite glGenerateMipmap_alignment).
  assert (Ha5 : unpack_alignment s5 = a)
    by (unfold s5; by rewrite glTexImage2D_alignment).
  assert (Ha6 : unpack_alignment s6 = a)
    by (unfold s6; by rewrite glTexImage2D_alignment).
  assert (Htex : texture = next_texture s)
    by (unfold glGenTextures in Hgen; by inversion Hgen).
  assert (H0 : bound_levels s4 !! 0 =
               Some (uploaded a 1024 1024 GL_RGBA c0)).
  { unfold s4. rewrite (glGenerateMipmap_base _ _ _ Hb3).
    unfold s3. rewrite (glTexImage2D_levels _ _ _ _ _ _ _ Hb), Hal2.
    by rewrite lookup_insert_eq. }
  assert (H7 : bound_levels s7 =
    <[3 := uploaded a 128 128 GL_RGBA c3]>
      (<[2 := uploaded a 256 256 GL_RGBA c2]>
         (<[1 := uploaded a 512 512 GL_RGBA c1]>
            (bound_levels s4)))).
  { unfold s7. rewrite (glTexImage2D_levels _ _ _ _ _ _ _ Hb6), Ha6.
    unfold s6. rewrite (glTexImage2D_levels _ _ _ _ _ _ _ Hb5), Ha5.
    unfold s5. rewrite (glTexImage2D_levels _ _ _ _ _ _ _ Hb4), Ha4.
    reflexivity. }
  rewrite Htex, !(level_of_bound _ _ _ Hb7), H7.
  split; [|split; [|split]].
  - by do 3 rewrite lookup_insert_ne by done.
  - do 2 rewrite lookup_insert_ne by done. by rewrite lookup_insert_eq.
  - rewrite lookup_insert_ne by done. by rewrite lookup_insert_eq.
  - by rewrite lookup_insert_eq.
Qed.

Lemma stride_RGBA a w :
  valid_alignment a -> In w [1024; 512; 256; 128] ->
  stride a w GL_RGBA = w * 4.
Proof.
  intros [-> | [-> | [-> | ->]]] [<- | [<- | [<- | [<- | []]]]];
    vm_compute; reflexivity.
Qed.

Lemma texel_RGBA im x y r g b a :
  img_format im = GL_RGBA ->
  0 <= x < img_width im -> 0 <= y < img_height im ->
  let off := y * row_stride im + x * 4 in
  byte_at (img_data im) (off + 0) = Some r ->
  byte_at (img_data im) (off + 1) = Some g ->
  byte_at (img_data im) (off + 2) = Some b ->
  byte_at (img_data im) (off + 3) = Some a ->
  texel im x y = Some {| red := r; green := g; blue := b; alpha := a |}.
Proof.
  intros Hf Hx Hy off Hr Hg Hb Ha. unfold texel.
  destruct (Z.leb_spec 0 x); [|lia]. destruct (Z.ltb_spec x (img_width im)); [|lia].
  destruct (Z.leb_spec 0 y); [|lia]. destruct (Z.ltb_spec y (img_height im)); [|lia].
  cbn [andb]. rewrite Hf. cbn [bytes_per_pixel]. fold off.
  rewrite Z.add_0_r in Hr. rewrite Hr, Hg, Hb, Ha. reflexivity.
Qed.

(** Byte [k] of word [i] of a vector filled with one value. *)
Lemma data_replicate_lookup o n w i k :
  0 <= i < n -> 0 <= k < 4 ->
  byte_at (data o (replicate (Z.to_nat n) w)) (i * 4 + k) =
    word_bytes o w !! Z.to_nat k.
Proof.
  intros Hi Hk. unfold byte_at, data.
  destruct (Z.ltb_spec (i * 4 + k) 0); [lia|].
  replace (Z.to_nat (i * 4 + k)) with (Z.to_nat i * 4 + Z.to_nat k)%nat by lia.
  destruct (word_bytes o w !! Z.to_nat k) as [b|] eqn:Hb.
  2:{ apply lookup_ge_None in Hb. destruct o; simpl in Hb; lia. }
  apply (join_lookup_Some_same_length' 4).
  - apply Forall_fmap, Forall_forall. intros v _. by destruct o.
  - lia.
  - exists (word_bytes o w). split; [|exact Hb].
    rewrite list_lookup_fmap, lookup_replicate_2 by lia. reflexivity.
Qed.

(** Every texel of a level uploaded from such a vector shows the four
    bytes of the fill value. *)
Lemma solid_texel o al w h v r g b a x y :
  stride al w GL_RGBA = w * 4 ->
  word_bytes o v = [r; g; b; a] ->
  0 <= x < w -> 0 <= y < h ->
  texel (uploaded al w h GL_RGBA (data o (replicate (Z.to_nat (w * h)) v)))
    x y = Some {| red := r; green := g; blue := b; alpha := a |}.
Proof.
  intros Hs Hv Hx Hy.
  apply texel_RGBA; try assumption; try reflexivity;
    cbn [uploaded row_stride img_data]; rewrite Hs;
    (replace (y * (w * 4) + x * 4) with ((y * w + x) * 4) by lia);
    rewrite data_replicate_lookup, Hv by nia; reflexivity.
Qed.

Lemma checkerboard_texel al x y :
  stride al 1024 GL_RGBA = 1024 * 4 ->
  0 <= x < 1024 -> 0 <= y < 1024 ->
  texel (uploaded al 1024 1024 GL_RGBA color) x y =
    Some (if (x + y) mod 2 =? 1 then opaque_white else opaque_black).
Proof.
  intros Hs Hx Hy.
  assert (Hpx : forall k, 0 <= k < 4 ->
            byte_at color (y * (1024 * 4) + x * 4 + k) =
              (if (x + y) mod 2 =? 1 then [255; 255; 255; 255]
               else [0; 0; 0; 255]) !! Z.to_nat k).
  { intros k Hk. unfold color, img_w, img_h.
    rewrite fill_lookup by lia. rewrite pixel_bytes_color by lia.
    by rewrite (Z.add_comm y x). }
  destruct ((x + y) mod 2 =? 1);
    apply texel_RGBA; try assumption; try reflexivity;
    cbn [uploaded row_stride img_data]; rewrite Hs, Hpx by lia;
    reflexivity.
Qed.

(** C5: the image handed to level 0 is 1024 by 1024 RGBA8, four bytes a
    pixel, and its texel at [(x, y)] is opaque white when [x + y] is odd
    and opaque black when it is even, whether [x] counts the columns, as
    OpenGL reads the buffer, or the rows, as the outer loop writes it. *)
Theorem C5_checkerboard_base_image (o : byte_order)
    (d : image -> Z -> image) (s : state) (x y : Z) :
  valid_alignment (unpack_alignment s) ->
  0 <= x < 1024 -> 0 <= y < 1024 ->
  let r := build_checkerboard o d s in
  exists im,
    level_of (fst r) 0 (snd r) = Some im /\
    img_width im = 1024 /\ img_height im = 1024 /\
    img_format im = GL_RGBA /\
    img_data im = color /\
    Z.of_nat (length color) = 1024 * 1024 * 4 /\
    texel im x y =
      Some (if (x + y) mod 2 =? 1 then opaque_white else opaque_black) /\
    texel im y x =
      Some (if (x + y) mod 2 =? 1 then opaque_white else opaque_black).
Proof.
  intros Hal Hx Hy r.
  destruct (build_checkerboard_levels o d s) as (H0 & _).
  assert (Hs : stride (unpack_alignment s) 1024 GL_RGBA = 1024 * 4)
    by (apply stride_RGBA; [exact Hal|]; by left).
  eexists. split; [exact H0|].
  do 4 (split; [reflexivity|]). split; [|split].
  - unfold color. rewrite fill_length. unfold img_w, img_h. lia.
  - apply checkerboard_texel; assumption.
  - rewrite (Z.add_comm x y). apply checkerboard_texel; assumption.
Qed.

Lemma C5_checkerboard_base_image_witness :
  exists im,
    level_of (fst (build_checkerboard LittleEndian (fun im _ => im)
                     (GL.initial 800 600))) 0
      (snd (build_checkerboard LittleEndian (fun im _ => im)
              (GL.initial 800 600))) = Some im /\
    img_width im = 1024 /\ img_height im = 1024 /\
    img_format im = GL_RGBA /\
    img_data im = color /\
    Z.of_nat (length color) = 1024 * 1024 * 4 /\
    texel im 2 1 = Some opaque_white /\
    texel im 1 2 = Some opaque_white.
Proof.
  apply (C5_checkerboard_base_image LittleEndian (fun im _ => im)
           (GL.initial 800 600) 2 1).
  - right. right. left. reflexivity.
  - lia.
  - lia.
Defined.

(** C2, on the code: levels 1, 2 and 3 are 512, 256 and 128 texels
    square and uniform whatever mipmap generation produced, and level 1
    is opaque red; but the words [0xffff0000] of [green_mipmap] lie in
    memory as the bytes 00 00 ff ff, so that level 2 is opaque blue, and
    those of [blue_mipmap], [0xff00ff00], as 00 ff 00 ff, so that level 3
    is opaque green.  On a big-endian host the two levels are
    transparent yellow and transparent magenta.  Level 2 is green and
    level 3 blue under neither byte order. *)
Theorem C2_levels_2_and_3_swapped (o : byte_order)
    (d : image -> Z -> image) (s : state) :
  valid_alignment (unpack_alignment s) ->
  let r := build_checkerboard o d s in
  exists l1 l2 l3,
    level_of (fst r) 1 (snd r) = Some l1 /\
    level_of (fst r) 2 (snd r) = Some l2 /\
    level_of (fst r) 3 (snd r) = Some l3 /\
    (img_width l1, img_height l1) = (512, 512) /\
    (img_width l2, img_height l2) = (256, 256) /\
    (img_width l3, img_height l3) = (128, 128) /\
    (forall x y, 0 <= x < 512 -> 0 <= y < 512 ->
       texel l1 x y = Some opaque_red) /\
    (forall x y, 0 <= x < 256 -> 0 <= y < 256 ->
       texel l2 x y =
         Some (match o with
               | LittleEndian => opaque_blue
               | BigEndian =>
                   {| red := 255; green := 255; blue := 0; alpha := 0 |}
               end) /\
       texel l2 x y <> Some opaque_green) /\
    (forall x y, 0 <= x < 128 -> 0 <= y < 128 ->
       texel l3 x y =
         Some (match o with
               | LittleEndian => opaque_green
               | BigEndian =>
                   {| red := 255; green := 0; blue := 255; alpha := 0 |}
               end) /\
       texel l3 x y <> Some opaque_blue).
Proof.
  intros Hal r.
  destruct (build_checkerboard_levels o d s) as (_ & H1 & H2 & H3).
  do 3 eexists.
  split; [exact H1|]. split; [exact H2|]. split; [exact H3|].
  do 3 (split; [reflexivity|]).
  assert (Hs1 : stride (unpack_alignment s) 512 GL_RGBA = 512 * 4)
    by (apply stride_RGBA; [exact Hal|]; right; by left).
  assert (Hs2 : stride (unpack_alignment s) 256 GL_RGBA = 256 * 4)
    by (apply stride_RGBA; [exact Hal|]; do 2 right; by left).
  assert (Hs3 : stride (unpack_alignment s) 128 GL_RGBA = 128 * 4)
    by (apply stride_RGBA; [exact Hal|]; do 3 right; by left).
  split; [|split].
  - intros x y Hx Hy. unfold red_mipmap.
    rewrite (solid_texel o _ 512 512 _ 255 0 0 255);
      [reflexivity|exact Hs1|by destruct o|exact Hx|exact Hy].
  - intros x y Hx Hy. unfold green_mipmap. destruct o.
    + rewrite (solid_texel LittleEndian _ 256 256 _ 0 0 255 255);
        [|exact Hs2|reflexivity|exact Hx|exact Hy].
      split; [reflexivity|discriminate].
    + rewrite (solid_texel BigEndian _ 256 256 _ 255 255 0 0);
        [|exact Hs2|reflexivity|exact Hx|exact Hy].
      split; [reflexivity|discriminate].
  - intros x y Hx Hy. unfold blue_mipmap. destruct o.
    + rewrite (solid_texel LittleEndian _ 128 128 _ 0 255 0 255);
        [|exact Hs3|reflexivity|exact Hx|exact Hy].
      split; [reflexivity|discriminate].
    + rewrite (solid_texel BigEndian _ 128 128 _ 255 0 255 0);
        [|exact Hs3|reflexivity|exact Hx|exact Hy].
      split; [reflexivity|discriminate].
Qed.

Lemma C2_levels_2_and_3_swapped_witness :
  valid_alignment (unpack_alignment (GL.initial 800 600)) /\
  exists l2 l3,
    level_of (fst (build_checkerboard LittleEndian (fun im _ => im)
                     (GL.initial 800 600))) 2
      (snd (build_checkerboard LittleEndian (fun im _ => im)
              (GL.initial 800 600))) = Some l2 /\
    level_of (fst (build_checkerboard LittleEndian (fun im _ => im)
                     (GL.initial 800 600))) 3
      (snd (build_checkerboard LittleEndian (fun im _ => im)
              (GL.initial 800 600))) = Some l3 /\
    texel l2 0 0 = Some opaque_blue /\
    texel l3 0 0 = Some opaque_green.
Proof.
  assert (Hal : valid_alignment (unpack_alignment (GL.initial 800 600)))
    by (right; right; left; reflexivity).
  split; [exact Hal|].
  destruct (C2_levels_2_and_3_swapped LittleEndian (fun im _ => im)
              (GL.initial 800 600) Hal)
    as (l1 & l2 & l3 & _ & H2 & H3 & _ & _ & _ & _ & T2 & T3).
  exists l2, l3.
  split; [exact H2|]. split; [exact H3|].
  split; [apply (T2 0 0); lia | apply (T3 0 0); lia].
Defined.

End TextureFacts.

Section ProjectionFacts.
Import Projection.

(** C6: for every window size the array [projection] holds [near / right]
    at (0,0) and [-(far + near) / (far - near)] at (2,2), in [float]
    arithmetic, with [near = 0.1f], [far = 100.f], [top = near] and
    [right = top * width / height]; at 800x600 and at 1920x1080 the first
    is exactly 3/4 and 9/16, and the second is the same [float] at every
    size. *)
Theorem C6_projection_entries (width height : Z) :
  let right := F32.div (F32.mul top (F32.of_int width)) (F32.of_int height) in
  near = F32.lit 1 10 /\ far = F32.of_int 100 /\ top = near /\
  entry (projection width height) 0 0 = Some (F32.div near right) /\
  entry (projection width height) 2 2 =
    Some (F32.opp (F32.div (F32.add far near) (F32.sub far near))) /\
  (exists q, entry (projection 800 600) 0 0 ≫= F32.to_Q = Some q /\
             (q == 3 # 4)%Q) /\
  (exists q, entry (projection 1920 1080) 0 0 ≫= F32.to_Q = Some q /\
             (q == 9 # 16)%Q) /\
  entry (projection width height) 2 2 =
    Some (S754_finite true 8405402 (-23)).
Proof.
  assert (Hnear : near = F32.lit 1 10) by (vm_compute; reflexivity).
  assert (Hfar : far = F32.of_int 100) by (vm_compute; reflexivity).
  assert (E00 : entry (projection width height) 0 0 =
                Some (F32.div near (right width height)))
    by reflexivity.
  unfold Projection.right in E00.
  intros right. fold right in E00. clearbody right.
  assert (H22 : F32.div (F32.opp (F32.add far near)) (F32.sub far near) =
                S754_finite true 8405402 (-23)) by (vm_compute; reflexivity).
  assert (H22' : F32.opp (F32.div (F32.add far near) (F32.sub far near)) =
                 S754_finite true 8405402 (-23)) by (vm_compute; reflexivity).
  assert (E22 : entry (projection width height) 2 2 =
                Some (S754_finite true 8405402 (-23))).
  { unfold entry, projection, matrix. cbn [Z.to_nat]. rewrite H22.
    reflexivity. }
  split; [exact Hnear|]. split; [exact Hfar|]. split; [reflexivity|].
  split; [exact E00|].
  split; [rewrite H22'; exact E22|].
  split; [|split; [|exact E22]].
  - eexists. split; [vm_compute; reflexivity|]. vm_compute. reflexivity.
  - eexists. split; [vm_compute; reflexivity|]. vm_compute. reflexivity.
Qed.

End ProjectionFacts.

Section AppFacts.
Import GL App.

(** *** Event handling *)

Lemma handle_event_clk event a : clk (handle_event event a) = clk a.
Proof. destruct event as [|[] ? ?| | |]; reflexivity. Qed.

Lemma poll_events_clk events : forall a, clk (poll_events events a) = clk a.
Proof.
  induction events as [|event rest IH]; intros a; [reflexivity|].
  unfold poll_events in *. simpl. rewrite IH. apply handle_event_clk.
Qed.

Lemma poll_events_app l1 l2 a :
  poll_events (l1 ++ l2) a = poll_events l2 (poll_events l1 a).
Proof. apply foldl_app. Qed.

Lemma handle_event_stopped event a :
  running a = false -> running (handle_event event a) = false.
Proof. destruct event as [|[] ? ?| | |]; intros H; try exact H; reflexivity. Qed.

Lemma poll_events_stopped events : forall a,
  running a = false -> running (poll_events events a) = false.
Proof.
  induction events as [|event rest IH]; intros a Ha; [exact Ha|].
  apply (IH (handle_event event a)), handle_event_stopped, Ha.
Qed.

(** A pending [SDL_QUIT] ends the loop, whatever else is pending. *)
Lemma quit_stops events : forall a,
  SDL_QUIT ∈ events -> running (poll_events events a) = false.
Proof.
  induction events as [|event rest IH]; intros a Hin.
  - by apply elem_of_nil in Hin.
  - apply elem_of_cons in Hin as [<- | Hin].
    + apply (poll_events_stopped rest (handle_event SDL_QUIT a)). reflexivity.
    + apply (IH (handle_event event a)), Hin.
Qed.

(** *** One frame *)

Lemma array_at_ok {A} (a : list A) (i : Z) :
  0 <= i < Z.of_nat (length a) -> exists x, array_at a i = Ok x.
Proof.
  intros Hi. unfold array_at.
  destruct (Z.ltb_spec i 0); [lia|].
  destruct (a !! Z.to_nat i) as [x|] eqn:Hx; [by exists x|].
  apply lookup_ge_None in Hx. lia.
Qed.

Lemma frame_inv p r tbl dt a a' :
  frame p r tbl dt a = Ok a' ->
  clk a' = Clock.step dt (clk a) /\ running a' = running a /\
  width a' = width a /\ height a' = height a.
Proof.
  unfold frame. cbn [clk set_clk].
  destruct (Clock.curr_frame_changed (Clock.step dt (clk a))).
  - destruct (array_at tbl _); [|discriminate..].
    cbn [bind]. intros [= <-]. by repeat split.
  - intros [= <-]. by repeat split.
Qed.

Lemma frame_not_throw p r tbl dt a what :
  frame p r tbl dt a <> Throw what.
Proof.
  unfold frame. cbn [clk set_clk].
  destruct (Clock.curr_frame_changed (Clock.step dt (clk a))); [|discriminate].
  unfold array_at. destruct (_ <? 0); [discriminate|].
  destruct (tbl !! _); discriminate.
Qed.

(** With a table of fifteen frames and a counter within it, the frame
    finds its image. *)
Lemma frame_ok p r tbl dt a :
  length tbl = 15%nat ->
  0 <= Clock.curr_frame (clk a) < 15 ->
  exists a', frame p r tbl dt a = Ok a'.
Proof.
  intros Hlen Hc. unfold frame. cbn [clk set_clk].
  destruct (Clock.curr_frame_changed (Clock.step dt (clk a))); [|by eexists].
  destruct (array_at_ok tbl (Clock.curr_frame (Clock.step dt (clk a))))
    as [px Hpx].
  - pose proof (step_bounded dt (clk a) Hc). lia.
  - rewrite Hpx. cbn [bind]. by eexists.
Qed.

(** *** Texture calls leave the uniforms alone *)

Lemma uniforms_set_levels lv s :
  uniforms (set_bound_levels lv s) = uniforms s.
Proof. unfold set_bound_levels. destruct (bound s); reflexivity. Qed.

Lemma glTexImage2D_uniforms level w h f data s :
  uniforms (glTexImage2D level w h f data s) = uniforms s.
Proof. apply uniforms_set_levels. Qed.

Lemma glTexSubImage2D_uniforms level w h f data s :
  uniforms (glTexSubImage2D level w h f data s) = uniforms s.
Proof.
  unfold glTexSubImage2D. destruct (bound_levels s !! level); [|reflexivity].
  destruct (_ && _); [apply glTexImage2D_uniforms|reflexivity].
Qed.

Lemma glGenerateMipmap_uniforms d s :
  uniforms (glGenerateMipmap d s) = uniforms s.
Proof.
  unfold glGenerateMipmap. destruct (bound_levels s !! 0); [|reflexivity].
  apply uniforms_set_levels.
Qed.

Lemma build_checkerboard_uniforms o d s :
  uniforms (snd (Checkerboard.build_checkerboard o d s)) = uniforms s.
Proof.
  unfold Checkerboard.build_checkerboard.
  generalize Checkerboard.color, (Checkerboard.data o Checkerboard.red_mipmap),
    (Checkerboard.data o Checkerboard.green_mipmap),
    (Checkerboard.data o Checkerboard.blue_mipmap).
  intros c0 c1 c2 c3. cbn [glGenTextures snd].
  by rewrite !glTexImage2D_uniforms, glGenerateMipmap_uniforms,
    glTexImage2D_uniforms.
Qed.

(** *** Setup *)

Lemma setup_inv p tbl r a :
  setup p tbl = Ok (r, a) ->
  clk a = Clock.init /\ running a = true /\
  (width a, height a) = SDL_GetWindowSize p /\
  view_location r = to_GLuint (glGetUniformLocation p "view") /\
  projection_location r = to_GLuint (glGetUniformLocation p "projection") /\
  tex_location r = to_GLuint (glGetUniformLocation p "tex") /\
  tex_img_location r = to_GLuint (glGetUniformLocation p "tex") /\
  uniforms (gl a) =
    uniforms (glLinkProgram p
                (GL.initial (fst (SDL_GetWindowSize p))
                   (snd (SDL_GetWindowSize p)))).
Proof.
  unfold setup, when, sdl2_fail, glew_fail, create_shader, create_program.
  destruct (SDL_Init p =? 0); [|discriminate].
  destruct (SDL_CreateWindow p); [|discriminate].
  destruct (SDL_GetWindowSize p) as [w h].
  destruct (SDL_GL_CreateContext p); [|discriminate].
  destruct (glewInit p =? GLEW_NO_ERROR); [|discriminate].
  destruct (GLEW_VERSION_3_3 p); [|discriminate].
  destruct (GL_COMPILE_STATUS p GL_VERTEX_SHADER); [|discriminate].
  destruct (GL_COMPILE_STATUS p GL_FRAGMENT_SHADER); [|discriminate].
  destruct (GL_LINK_STATUS p); [|discriminate].
  cbn [negb bind fst snd].
  pose proof (build_checkerboard_uniforms (byte_order p) (downsample p)
                (glLinkProgram p (GL.initial w h))) as Hu.
  destruct (Checkerboard.build_checkerboard _ _ _) as [texture g].
  cbn [snd] in Hu.
  destruct (array_at tbl 0); [|discriminate..].
  cbn [bind glGenTextures]. intros [= <- <-]. cbn.
  rewrite glGenerateMipmap_uniforms, glTexImage2D_uniforms. cbn.
  by rewrite Hu.
Qed.

(** *** Uniforms *)

Lemma GLint_of_GLuint x :
  - 2 ^ 31 <= x < 2 ^ 31 -> to_GLint (to_GLuint x) = x.
Proof.
  intros Hx. unfold to_GLint, to_GLuint. rewrite Z.mod_mod by lia.
  destruct (Z.ltb_spec (x mod 2 ^ 32) (2 ^ 31)) as [Hlt | Hge].
  - destruct (Z.lt_ge_cases x 0) as [Hneg | Hpos].
    + rewrite <- (Z.mod_add x 1) in Hlt by lia.
      rewrite Z.mod_small in Hlt by lia. lia.
    + apply Z.mod_small. lia.
  - destruct (Z.lt_ge_cases x 0) as [Hneg | Hpos].
    + rewrite <- (Z.mod_add x 1) by lia. rewrite Z.mod_small by lia. lia.
    + rewrite Z.mod_small in Hge by lia. lia.
Qed.

Lemma handle_event_uniforms event a :
  uniforms (gl (handle_event event a)) = uniforms (gl a).
Proof. destruct event as [|[] ? ?| | |]; reflexivity. Qed.

Lemma poll_events_uniforms events : forall a,
  uniforms (gl (poll_events events a)) = uniforms (gl a).
Proof.
  induction events as [|event rest IH]; intros a; [reflexivity|].
  unfold poll_events in *. simpl. rewrite IH. apply handle_event_uniforms.
Qed.

Lemma glUniform1i_lookup location v s j :
  location <> -1 ->
  uniforms (glUniform1i location v s) !! j =
    if decide (location = j) then Some (Int1 v) else uniforms s !! j.
Proof.
  intros Hl. unfold glUniform1i.
  destruct (Z.eqb_spec location (-1)); [contradiction|].
  cbn [uniforms set_uniforms]. apply lookup_insert.
Qed.

Lemma glUniformMatrix4fv_lookup location t m s j :
  location <> j ->
  uniforms (glUniformMatrix4fv location t m s) !! j = uniforms s !! j.
Proof.
  intros Hl. unfold glUniformMatrix4fv.
  destruct (location =? -1); [reflexivity|].
  cbn [uniforms set_uniforms]. by apply lookup_insert_ne.
Qed.

(** The uniforms a frame leaves are those its four writes produce. *)
Lemma frame_uniforms p r tbl dt a a' :
  frame p r tbl dt a = Ok a' ->
  uniforms (gl a') =
    uniforms
      (glUniform1i (to_GLint (tex_img_location r)) 1
         (glUniform1i (to_GLint (tex_location r)) 0
            (glUniformMatrix4fv (to_GLint (projection_location r)) true
               (frame_projection a)
               (glUniformMatrix4fv (to_GLint (view_location r)) true
                  (Projection.view (cos p) (sin p)) (gl a))))).
Proof.
  unfold frame. cbn [clk set_clk gl].
  destruct (Clock.curr_frame_changed (Clock.step dt (clk a))).
  - destruct (array_at tbl _); [|discriminate..].
    cbn [bind]. intros [= <-]. cbn [gl set_gl].
    by rewrite glGenerateMipmap_uniforms, glTexSubImage2D_uniforms.
  - intros [= <-]. reflexivity.
Qed.

Lemma active_uniforms_inv p :
  active_uniforms p ->
  let loc := glGetUniformLocation p in
  (0 <= loc "view" < 2 ^ 31 /\ 0 <= loc "projection" < 2 ^ 31 /\
   0 <= loc "tex" < 2 ^ 31 /\ 0 <= loc "img" < 2 ^ 31) /\
  loc "view" <> loc "img" /\ loc "projection" <> loc "img" /\
  loc "tex" <> loc "img" /\
  loc "view" <> loc "tex" /\ loc "projection" <> loc "tex".
Proof.
  intros [Hnd Hrange] loc. unfold uniform_names in *.
  rewrite !Forall_cons in Hrange.
  destruct Hrange as (Hv & Hp & Ht & Hi & _).
  subst loc. split; [tauto|].
  cbn [fmap list_fmap] in Hnd.
  rewrite !NoDup_cons, !not_elem_of_cons in Hnd.
  destruct Hnd as ((? & ? & ? & _) & (? & ? & _) & (? & _) & _).
  tauto.
Qed.

Lemma setup_ok p tbl :
  setup_succeeds p -> (0 < length tbl)%nat ->
  exists r a, setup p tbl = Ok (r, a).
Proof.
  intros (H1 & H2 & H3 & H4 & H5 & H6 & H7 & H8) Hlen.
  unfold setup, when, create_shader, create_program.
  rewrite H1, H2, H3, H4, H5, H6, H7, H8. cbn [Z.eqb negb bind].
  destruct (SDL_GetWindowSize p) as [w h]. cbn [negb bind].
  destruct (Checkerboard.build_checkerboard _ _ _) as [texture g].
  destruct tbl as [|px tbl]; [simpl in Hlen; lia|].
  cbn [array_at Z.ltb Z.compare Z.to_nat lookup list_lookup bind glGenTextures].
  by do 2 eexists.
Qed.

Lemma setup_in_bounds p tbl :
  (0 < length tbl)%nat -> setup p tbl <> OutOfBounds.
Proof.
  intros Hlen.
  unfold setup, when, sdl2_fail, glew_fail, create_shader, create_program.
  destruct (SDL_Init p =? 0); [|discriminate].
  destruct (SDL_CreateWindow p); [|discriminate].
  destruct (SDL_GetWindowSize p) as [w h].
  destruct (SDL_GL_CreateContext p); [|discriminate].
  destruct (glewInit p =? GLEW_NO_ERROR); [|discriminate].
  destruct (GLEW_VERSION_3_3 p); [|discriminate].
  destruct (GL_COMPILE_STATUS p GL_VERTEX_SHADER); [|discriminate].
  destruct (GL_COMPILE_STATUS p GL_FRAGMENT_SHADER); [|discriminate].
  destruct (GL_LINK_STATUS p); [|discriminate].
  cbn [negb bind].
  destruct (Checkerboard.build_checkerboard _ _ _) as [texture g].
  destruct tbl as [|px tbl]; [simpl in Hlen; lia|].
  cbn [array_at Z.ltb Z.compare Z.to_nat lookup list_lookup bind glGenTextures].
  discriminate.
Qed.

(** The setup throws exactly when one of its checks fails. *)
Lemma setup_outcome p tbl :
  (0 < length tbl)%nat ->
  match setup p tbl with
  | Ok _ => setup_succeeds p
  | Throw _ => ~ setup_succeeds p
  | OutOfBounds => False
  end.
Proof.
  intros Hlen. unfold setup_succeeds.
  unfold setup, when, sdl2_fail, glew_fail, create_shader, create_program.
  destruct (Z.eqb_spec (SDL_Init p) 0); [|cbn; tauto].
  destruct (SDL_CreateWindow p); [|cbn; intuition discriminate].
  destruct (SDL_GetWindowSize p) as [w h].
  destruct (SDL_GL_CreateContext p); [|cbn; intuition discriminate].
  destruct (Z.eqb_spec (glewInit p) GLEW_NO_ERROR); [|cbn; tauto].
  destruct (GLEW_VERSION_3_3 p); [|cbn; intuition discriminate].
  destruct (GL_COMPILE_STATUS p GL_VERTEX_SHADER);
    [|cbn; intuition discriminate].
  destruct (GL_COMPILE_STATUS p GL_FRAGMENT_SHADER);
    [|cbn; intuition discriminate].
  destruct (GL_LINK_STATUS p); [|cbn; intuition discriminate].
  cbn [negb bind].
  destruct (Checkerboard.build_checkerboard _ _ _) as [texture g].
  destruct tbl as [|px tbl]; [simpl in Hlen; lia|].
  cbn [array_at Z.ltb Z.compare Z.to_nat lookup list_lookup bind glGenTextures].
  repeat split; assumption || reflexivity.
Qed.

(** *** The loop *)

Lemma reachable_bounded p tbl r a :
  reachable p tbl r a -> 0 <= Clock.curr_frame (clk a) < 15.
Proof.
  induction 1 as [a Hs | a events dt a' _ IH _ Hf].
  - apply setup_inv in Hs as (-> & _). apply init_bounded.
  - apply frame_inv in Hf as (-> & _).
    rewrite poll_events_clk. apply step_bounded, IH.
Qed.

Lemma main_loop_ok p r tbl input : forall a,
  length tbl = 15%nat ->
  0 <= Clock.curr_frame (clk a) < 15 ->
  exists st, main_loop p r tbl input a = Ok st.
Proof.
  induction input as [|[events dt] rest IH]; intros a Hlen Hc.
  - by eexists.
  - cbn [main_loop]. destruct (running (poll_events events a)).
    + destruct (frame_ok p r tbl dt (poll_events events a) Hlen)
        as [a' Ha']; [by rewrite poll_events_clk|].
      rewrite Ha'. cbn [negb bind]. apply IH; [exact Hlen|].
      apply frame_inv in Ha' as (-> & _).
      rewrite poll_events_clk. apply step_bounded, Hc.
    + by eexists.
Qed.

(** Once some iteration polls [SDL_QUIT], the loop is left. *)
Lemma main_loop_closes p r tbl input : forall a,
  length tbl = 15%nat ->
  0 <= Clock.curr_frame (clk a) < 15 ->
  closes input ->
  exists a', main_loop p r tbl input a = Ok (Stopped a').
Proof.
  induction input as [|[events dt] rest IH]; intros a Hlen Hc Hq.
  - by apply Exists_nil in Hq.
  - cbn [main_loop].
    destruct (running (poll_events events a)) eqn:Hrun; [|by eexists].
    apply Exists_cons in Hq as [Hq | Hq].
    { cbn [fst] in Hq. rewrite (quit_stops events a Hq) in Hrun.
      discriminate. }
    destruct (frame_ok p r tbl dt (poll_events events a) Hlen)
      as [a' Ha']; [by rewrite poll_events_clk|].
    rewrite Ha'. cbn [negb bind]. apply IH; [exact Hlen| |exact Hq].
    apply frame_inv in Ha' as (-> & _).
    rewrite poll_events_clk. apply step_bounded, Hc.
Qed.

Lemma reachable_setup p tbl r a :
  reachable p tbl r a -> exists a0, setup p tbl = Ok (r, a0).
Proof. induction 1 as [a Hs | ]; [by exists a | assumption]. Qed.

Lemma binding_set_levels lv s :
  texture_binding_2d (set_bound_levels lv s) = texture_binding_2d s.
Proof. unfold set_bound_levels. destruct (bound s); reflexivity. Qed.

Lemma glTexSubImage2D_binding level w h f data s :
  texture_binding_2d (glTexSubImage2D level w h f data s) =
    texture_binding_2d s.
Proof.
  unfold glTexSubImage2D. destruct (bound_levels s !! level); [|reflexivity].
  destruct (_ && _); [apply binding_set_levels|reflexivity].
Qed.

Lemma glGenerateMipmap_binding d s :
  texture_binding_2d (glGenerateMipmap d s) = texture_binding_2d s.
Proof.
  unfold glGenerateMipmap. destruct (bound_levels s !! 0); [|reflexivity].
  apply binding_set_levels.
Qed.

(** After a frame, unit 0 holds the checkerboard and unit 1 the animated
    texture. *)
Lemma frame_bindings p r tbl dt a a' :
  frame p r tbl dt a = Ok a' ->
  texture_binding_2d (gl a') !! 0 = Some (texture r) /\
  texture_binding_2d (gl a') !! 1 = Some (tex_img r).
Proof.
  unfold frame. cbn [clk set_clk gl].
  destruct (Clock.curr_frame_changed (Clock.step dt (clk a))).
  - destruct (array_at tbl _); [|discriminate..].
    cbn [bind]. intros [= <-]. cbn [gl set_gl].
    rewrite glGenerateMipmap_binding, glTexSubImage2D_binding.
    cbn. by rewrite lookup_insert_ne, !lookup_insert_eq.
  - intros [= <-]. cbn. by rewrite lookup_insert_ne, !lookup_insert_eq.
Qed.

(** What one frame does to the two sampler uniforms. *)
Lemma frame_samplers p tbl r a0 dt a a' :
  active_uniforms p ->
  setup p tbl = Ok (r, a0) ->
  frame p r tbl dt a = Ok a' ->
  uniforms (gl a') !! glGetUniformLocation p "tex" = Some (Int1 1) /\
  uniforms (gl a') !! glGetUniformLocation p "img" =
    uniforms (gl a) !! glGetUniformLocation p "img".
Proof.
  intros Hact Hs Hf.
  apply active_uniforms_inv in Hact as ((Hv & Hp & Ht & Hi) & Hvi & Hpi & Hti & _).
  apply setup_inv in Hs as (_ & _ & _ & Ev & Ep & Et & Eti & _).
  rewrite (frame_uniforms _ _ _ _ _ _ Hf), Ev, Ep, Et, Eti.
  rewrite !GLint_of_GLuint by lia.
  split.
  - rewrite glUniform1i_lookup by lia. by rewrite decide_True.
  - rewrite !glUniform1i_lookup by lia.
    destruct (decide _) as [E | _]; [contradiction (Hti E)|].
    rewrite !glUniformMatrix4fv_lookup by assumption. reflexivity.
Qed.

Lemma reachable_img_uniform p tbl r a :
  active_uniforms p ->
  reachable p tbl r a ->
  uniforms (gl a) !! glGetUniformLocation p "img" = Some (Int1 0).
Proof.
  intros Hact Hr.
  destruct (reachable_setup _ _ _ _ Hr) as [a0 Hs0].
  induction Hr as [a Hs | a events dt a' Hr IH _ Hf].
  - apply setup_inv in Hs as (_ & _ & _ & _ & _ & _ & _ & ->).
    apply active_uniforms_inv in Hact as ((_ & _ & Ht & Hi) & _).
    unfold glLinkProgram. rewrite glUniform1i_lookup by lia.
    by rewrite decide_True.
  - destruct (frame_samplers _ _ _ _ _ _ _ Hact Hs0 Hf) as [_ ->].
    rewrite poll_events_uniforms. exact IH.
Qed.

Lemma working_platform_active : active_uniforms working_platform.
Proof.
  split.
  - cbn. rewrite !NoDup_cons, !not_elem_of_cons.
    repeat split; try lia; try apply not_elem_of_nil. apply NoDup_nil_2.
  - unfold uniform_names. repeat constructor; cbn; lia.
Qed.

Lemma working_platform_setup :
  exists r a, setup working_platform blank_frames = Ok (r, a).
Proof.
  apply setup_ok; [by repeat split | cbn; lia].
Qed.

(** C9: with the fifteen frames of the asset, the index 0 used at startup
    is in bounds, and so is [curr_frame] whenever the loop reads
    [test_image_data[curr_frame]]: in every state the loop can reach, and
    for every batch of events and frame time, the counter the clock
    leaves lies in [0, 15) and the frame finds its image.  No run of
    [main] ever indexes the table out of bounds. *)
Theorem C9_frame_table_access_in_bounds (p : platform)
    (tbl : list (list Z)) (input : list (list SDL_Event * F32.t)) :
  length tbl = 15%nat ->
  (exists pixels, array_at tbl 0 = Ok pixels) /\
  (forall r a, reachable p tbl r a ->
     forall events dt,
       let c := Clock.step dt (clk (poll_events events a)) in
       0 <= Clock.curr_frame c < 15 /\
       (exists pixels, array_at tbl (Clock.curr_frame c) = Ok pixels) /\
       (exists a', frame p r tbl dt (poll_events events a) = Ok a')) /\
  main p tbl input <> Undefined.
Proof.
  intros Hlen. split; [|split].
  - apply array_at_ok. lia.
  - intros r a Hr events dt c.
    assert (Hc : 0 <= Clock.curr_frame c < 15).
    { apply step_bounded. rewrite poll_events_clk.
      apply (reachable_bounded _ _ _ _ Hr). }
    split; [exact Hc|]. split.
    + apply array_at_ok. lia.
    + apply frame_ok; [exact Hlen|]. rewrite poll_events_clk.
      apply (reachable_bounded _ _ _ _ Hr).
  - unfold main.
    destruct (setup p tbl) as [[r a] | what |] eqn:Hs; cbn [bind fst snd].
    + destruct (main_loop_ok p r tbl input a Hlen) as [st ->].
      * apply (reachable_bounded p tbl r a), reach_setup, Hs.
      * destruct st; discriminate.
    + discriminate.
    + exfalso. apply (setup_in_bounds p tbl); [lia|exact Hs].
Qed.

Lemma C9_frame_table_access_in_bounds_witness :
  length blank_frames = 15%nat /\
  main working_platform blank_frames
    [([], Clock.dt_60fps); ([SDL_KEYDOWN 32], Clock.dt_60fps)] <> Undefined.
Proof.
  split; [reflexivity|].
  apply (C9_frame_table_access_in_bounds working_platform blank_frames).
  reflexivity.
Defined.

(** C10: the setup either succeeds or throws, and throws exactly when
    one of its checks fails; when it throws, [main] returns
    [EXIT_FAILURE], which is not 0, and the standard error stream holds
    the message of the exception and a newline; when it succeeds and the
    window is closed at some iteration, [main] returns 0 and writes
    nothing. *)
Theorem C10_exit_status (p : platform) (tbl : list (list Z))
    (input : list (list SDL_Event * F32.t)) :
  length tbl = 15%nat ->
  match setup p tbl with
  | Ok _ =>
      setup_succeeds p /\
      (closes input -> main p tbl input = Exit 0 EmptyString)
  | Throw what =>
      ~ setup_succeeds p /\
      main p tbl input = Exit EXIT_FAILURE (c_str what +:+ endl) /\
      EXIT_FAILURE <> 0
  | OutOfBounds => False
  end.
Proof.
  intros Hlen. unfold main.
  pose proof (setup_outcome p tbl) as Hout.
  destruct (setup p tbl) as [[r a] | what |] eqn:Hs; cbn [bind fst snd].
  - split; [apply Hout; lia|]. intros Hq.
    destruct (main_loop_closes p r tbl input a Hlen) as [a' ->];
      [|exact Hq|reflexivity].
    apply (reachable_bounded p tbl r a), reach_setup, Hs.
  - split; [apply Hout; lia|]. split; [reflexivity|discriminate].
  - apply Hout. lia.
Qed.

Lemma headless_platform_setup :
  setup headless_platform blank_frames =
    Throw "SDL_Init: No available video device".
Proof. reflexivity. Qed.

Lemma C10_exit_status_witness :
  length blank_frames = 15%nat /\
  main working_platform blank_frames
    [([], Clock.dt_60fps); ([SDL_KEYUP 32; SDL_QUIT], Clock.dt_60fps)] =
    Exit 0 EmptyString /\
  main headless_platform blank_frames [] =
    Exit 1 ("SDL_Init: No available video device" +:+ endl).
Proof.
  split; [reflexivity|]. split.
  - pose proof (C10_exit_status working_platform blank_frames
      [([], Clock.dt_60fps); ([SDL_KEYUP 32; SDL_QUIT], Clock.dt_60fps)]
      eq_refl) as H.
    destruct working_platform_setup as (r & a & Hs). rewrite Hs in H.
    apply H. apply Exists_cons_tl, Exists_cons_hd. cbn [fst].
    apply elem_of_cons. right. apply elem_of_cons. by left.
  - pose proof (C10_exit_status headless_platform blank_frames [] eq_refl)
      as H.
    rewrite headless_platform_setup in H. apply H.
Defined.

End AppFacts.

(** * Further properties of the event handling, the loop and the setup *)

Section EventFacts.
Import GL App Trace.

Lemma polls_quit_elem events : polls_quit events = true <-> SDL_QUIT ∈ events.
Proof.
  unfold polls_quit. rewrite existsb_exists. split.
  - intros (e & Hin & He). destruct e; try discriminate.
    by apply list_elem_of_In.
  - intros Hin. exists SDL_QUIT. split; [by apply list_elem_of_In|reflexivity].
Qed.

Lemma handle_event_running event a :
  running (handle_event event a) = running a && negb (is_quit event).
Proof.
  destruct event as [|[] ? ?| | |]; cbn;
    by rewrite ?andb_true_r, ?andb_false_r.
Qed.

Lemma poll_events_running (events : list SDL_Event) : forall a,
  running (poll_events events a) = running a && negb (polls_quit events).
Proof.
  induction events as [|event rest IH]; intros a.
  - cbn. by rewrite andb_true_r.
  - change (poll_events (event :: rest) a)
      with (poll_events rest (handle_event event a)).
    rewrite IH, handle_event_running. cbn [polls_quit existsb].
    fold (polls_quit rest).
    destruct (running a), (is_quit event), (polls_quit rest); reflexivity.
Qed.

(** X1: after a batch of events the loop keeps running exactly when it was
    running before and the batch holds no [SDL_QUIT], wherever in the
    batch it stands; nothing sets [running] again. *)
Theorem X1_running_after_poll (events : list SDL_Event) (a : app) :
  running (poll_events events a) = running a && negb (polls_quit events).
Proof. apply poll_events_running. Qed.

(** X2: after a batch of events [width] and [height] are those of the last
    resize event of the batch, or unchanged when it holds none. *)
Theorem X2_last_resize_wins (events : list SDL_Event) (a : app) :
  (width (poll_events events a), height (poll_events events a)) =
    default (width a, height a) (last_resize events).
Proof.
  revert a. induction events as [|event rest IH]; intros a; [reflexivity|].
  change (poll_events (event :: rest) a)
    with (poll_events rest (handle_event event a)).
  rewrite IH. cbn [last_resize].
  destruct (last_resize rest) as [size|]; [reflexivity|].
  destruct event as [|[] ? ?| | |]; reflexivity.
Qed.

Lemma handle_event_viewport_fits event a :
  viewport_fits a -> viewport_fits (handle_event event a).
Proof.
  unfold viewport_fits. destruct event as [|[] ? ?| | |]; intros H;
    try exact H; reflexivity.
Qed.

Lemma poll_events_viewport_fits events : forall a,
  viewport_fits a -> viewport_fits (poll_events events a).
Proof.
  induction events as [|event rest IH]; intros a Ha; [exact Ha|].
  apply (IH (handle_event event a)), handle_event_viewport_fits, Ha.
Qed.

(** X3: a batch of events keeps the viewport equal to the stored window
    size, and establishes that as soon as it holds a resize event. *)
Theorem X3_viewport_follows_size (events : list SDL_Event) (a : app) :
  viewport_fits a \/ is_Some (last_resize events) ->
  viewport_fits (poll_events events a).
Proof.
  revert a. induction events as [|event rest IH]; intros a [Ha | Hr].
  - exact Ha.
  - by destruct Hr.
  - by apply poll_events_viewport_fits.
  - change (poll_events (event :: rest) a)
      with (poll_events rest (handle_event event a)).
    cbn [last_resize] in Hr.
    destruct (last_resize rest) as [size|] eqn:Hrest.
    + apply IH. right. by eexists.
    + apply poll_events_viewport_fits.
      destruct event as [|[] ? ?| | |];
        solve [reflexivity | destruct Hr as [? [=]]].
Qed.

Lemma X3_viewport_follows_size_witness :
  viewport_fits
    (poll_events
       [SDL_WINDOWEVENT SDL_WINDOWEVENT_RESIZED 640 480; SDL_KEYDOWN 27]
       {| width := 800; height := 600; clk := Clock.init; button_down := ∅;
          running := true; gl := GL.initial 1 1 |}).
Proof.
  apply X3_viewport_follows_size. right. cbn. by eexists.
Defined.

(** X4: after a batch of events the entry of [button_down] for a key is
    what the last key event for that key in the batch says (down: true,
    up: false), and the entry of a key the batch does not mention is
    untouched. *)
Theorem X4_button_down_last_key (sym : Z) (events : list SDL_Event) (a : app) :
  button_down (poll_events events a) !! sym =
    match last_key sym events with
    | Some b => Some b
    | None => button_down a !! sym
    end.
Proof.
  revert a. induction events as [|event rest IH]; intros a; [reflexivity|].
  change (poll_events (event :: rest) a)
    with (poll_events rest (handle_event event a)).
  rewrite IH. cbn [last_key].
  destruct (last_key sym rest) as [b|]; [reflexivity|].
  destruct event as [|[] ? ?|s|s|]; try reflexivity; cbn [handle_event];
    cbn [button_down set_button_down];
    (destruct (Z.eqb_spec s sym) as [-> | Hne];
      [by rewrite lookup_insert_eq | by rewrite lookup_insert_ne]).
Qed.

Lemma handle_event_gl event a :
  textures (gl (handle_event event a)) = textures (gl a) /\
  texture_binding_2d (gl (handle_event event a)) = texture_binding_2d (gl a) /\
  unpack_alignment (gl (handle_event event a)) = unpack_alignment (gl a).
Proof. destruct event as [|[] ? ?| | |]; by repeat split. Qed.

(** X5: event handling never touches the clock, the textures, the texture
    bindings, the unpack alignment or the uniforms. *)
Theorem X5_events_leave_rendering_state (events : list SDL_Event) (a : app) :
  clk (poll_events events a) = clk a /\
  textures (gl (poll_events events a)) = textures (gl a) /\
  texture_binding_2d (gl (poll_events events a)) = texture_binding_2d (gl a) /\
  unpack_alignment (gl (poll_events events a)) = unpack_alignment (gl a) /\
  uniforms (gl (poll_events events a)) = uniforms (gl a).
Proof.
  split; [apply poll_events_clk|].
  assert (H : textures (gl (poll_events events a)) = textures (gl a) /\
    texture_binding_2d (gl (poll_events events a)) =
      texture_binding_2d (gl a) /\
    unpack_alignment (gl (poll_events events a)) = unpack_alignment (gl a)).
  { revert a. induction events as [|event rest IH]; intros a; [by repeat split|].
    change (poll_events (event :: rest) a)
      with (poll_events rest (handle_event event a)).
    destruct (IH (handle_event event a)) as (-> & -> & ->).
    apply handle_event_gl. }
  destruct H as (Ht & Hb & Hu). repeat split; try assumption.
  apply poll_events_uniforms.
Qed.

End EventFacts.

Section LoopFacts.
Import GL App Trace.

Lemma quits_closes input : quits input = true <-> closes input.
Proof.
  unfold quits, closes. rewrite existsb_exists, Exists_exists.
  split; intros (it & Hin & Hq); exists it.
  - split; [by apply list_elem_of_In | by apply polls_quit_elem].
  - split; [by apply list_elem_of_In | by apply polls_quit_elem].
Qed.

Lemma reachable_running p tbl r a : reachable p tbl r a -> running a = true.
Proof.
  induction 1 as [a Hs | a events dt a' _ _ Hrun Hf].
  - by apply setup_inv in Hs as (_ & -> & _).
  - apply frame_inv in Hf as (_ & -> & _). exact Hrun.
Qed.

(** How the loop ends on a given input, and where its clock stands. *)
Lemma main_loop_trace p r tbl input : forall a,
  length tbl = 15%nat ->
  running a = true ->
  0 <= Clock.curr_frame (clk a) < 15 ->
  exists a',
    main_loop p r tbl input a =
      Ok (if quits input then Stopped a' else Looping a') /\
    clk a' = Clock.run (rendered input) (clk a).
Proof.
  induction input as [|[events dt] rest IH]; intros a Hlen Hrun Hc.
  - exists a. by split.
  - cbn [main_loop rendered quits existsb fst]. fold (quits rest).
    rewrite poll_events_running, Hrun. cbn [andb].
    destruct (polls_quit events) eqn:Hq.
    + cbn [negb orb]. eexists. split; [reflexivity|].
      cbn [Clock.run]. apply poll_events_clk.
    + cbn [negb orb].
      destruct (frame_ok p r tbl dt (poll_events events a) Hlen)
        as [a1 Ha1]; [by rewrite poll_events_clk|].
      rewrite Ha1. cbn [bind].
      pose proof (frame_inv _ _ _ _ _ _ Ha1) as (Hclk & Hr1 & _).
      rewrite poll_events_clk in Hclk.
      destruct (IH a1 Hlen) as (a' & Hloop & Hclk').
      * by rewrite Hr1, poll_events_running, Hrun, Hq.
      * rewrite Hclk. apply step_bounded, Hc.
      * exists a'. split; [exact Hloop|].
        rewrite Hclk'. cbn [Clock.run]. by rewrite Hclk.
Qed.

(** X6: once the setup has succeeded, [main] returns 0 exactly when some
    batch of events holds an [SDL_QUIT]; without one the loop goes through
    all of its input and is still running: nothing else ends it. *)
Theorem X6_loop_ends_on_quit_only (p : platform) (tbl : list (list Z))
    (input : list (list SDL_Event * F32.t)) (r : resources) (a : app) :
  length tbl = 15%nat ->
  setup p tbl = Ok (r, a) ->
  main p tbl input =
    if quits input then Exit 0 EmptyString else StillRunning.
Proof.
  intros Hlen Hs. unfold main. rewrite Hs. cbn [bind fst snd].
  assert (Hr : reachable p tbl r a) by (apply reach_setup, Hs).
  destruct (main_loop_trace p r tbl input a Hlen) as (a' & -> & _).
  - apply (reachable_running _ _ _ _ Hr).
  - apply (reachable_bounded _ _ _ _ Hr).
  - destruct (quits input); reflexivity.
Qed.

Lemma X6_loop_ends_on_quit_only_witness :
  exists r a,
    setup working_platform blank_frames = Ok (r, a) /\
    main working_platform blank_frames
      [([SDL_KEYDOWN 97], Clock.dt_60fps); ([], Clock.dt_60fps)] =
      StillRunning.
Proof.
  destruct working_platform_setup as (r & a & Hs). exists r, a.
  split; [exact Hs|].
  exact (X6_loop_ends_on_quit_only working_platform blank_frames
           [([SDL_KEYDOWN 97], Clock.dt_60fps); ([], Clock.dt_60fps)] r a
           eq_refl Hs).
Defined.

(** X7: the clock of the frame loop is the animation clock run over the
    frame times of the iterations that render, starting from zero: the
    iteration that polls [SDL_QUIT], and all input after it, add no time
    and no frame. *)
Theorem X7_loop_clock_is_clock_run (p : platform) (tbl : list (list Z))
    (input : list (list SDL_Event * F32.t)) (r : resources) (a : app) :
  length tbl = 15%nat ->
  setup p tbl = Ok (r, a) ->
  exists st,
    main_loop p r tbl input a = Ok st /\
    clk (final st) = Clock.run (rendered input) Clock.init.
Proof.
  intros Hlen Hs.
  assert (Hr : reachable p tbl r a) by (apply reach_setup, Hs).
  destruct (main_loop_trace p r tbl input a Hlen) as (a' & Hloop & Hclk).
  - apply (reachable_running _ _ _ _ Hr).
  - apply (reachable_bounded _ _ _ _ Hr).
  - eexists. split; [exact Hloop|].
    apply setup_inv in Hs as (Hinit & _). rewrite Hinit in Hclk.
    destruct (quits input); exact Hclk.
Qed.

Lemma X7_loop_clock_is_clock_run_witness :
  exists r a st,
    main_loop working_platform r blank_frames
      [([], Clock.dt_60fps); ([SDL_QUIT], Clock.dt_60fps)] a = Ok st /\
    clk (final st) = Clock.run [Clock.dt_60fps] Clock.init.
Proof.
  destruct working_platform_setup as (r & a & Hs). exists r, a.
  apply (X7_loop_clock_is_clock_run working_platform blank_frames
           [([], Clock.dt_60fps); ([SDL_QUIT], Clock.dt_60fps)] r a);
    [reflexivity | exact Hs].
Defined.

(** X8: the elapsed time is the left-to-right [float] sum of the frame
    times; advancing the frame never resets or adjusts it. *)
Theorem X8_time_is_sum_of_frame_times (dts : list F32.t) (c : Clock.clock) :
  Clock.time (Clock.run dts c) = foldl F32.add (Clock.time c) dts.
Proof.
  revert c. induction dts as [|dt rest IH]; intros c; [reflexivity|].
  cbn [Clock.run foldl]. by rewrite IH, step_time.
Qed.

End LoopFacts.

Section TextureBankFacts.
Import GL Checkerboard.

Lemma textures_set_levels n lv s :
  bound s = Some n ->
  textures (set_bound_levels lv s) = <[n := lv]> (textures s).
Proof. intros Hb. unfold set_bound_levels. by rewrite Hb. Qed.

Lemma glTexImage2D_textures n level w h f data s :
  bound s = Some n ->
  textures (glTexImage2D level w h f data s) =
    <[n := <[level := uploaded (unpack_alignment s) w h f data]>
             (bound_levels s)]> (textures s).
Proof. intros Hb. unfold glTexImage2D. by apply textures_set_levels. Qed.

(** Mipmap generation rewrites the bound texture only, and keeps its base
    level. *)
Lemma glGenerateMipmap_textures n d s base :
  bound s = Some n ->
  bound_levels s !! 0 = Some base ->
  exists lv,
    textures (glGenerateMipmap d s) = <[n := lv]> (textures s) /\
    lv !! 0 = Some base.
Proof.
  intros Hb Hbase. unfold glGenerateMipmap. rewrite Hbase.
  eexists. split; [by apply textures_set_levels|].
  rewrite insert_levels_base; [exact Hbase|].
  apply Forall_forall. intros k Hk. apply elem_of_seqZ in Hk. lia.
Qed.

Lemma insert_levels_lookup (f : Z -> image) (l : list Z) (j : Z) :
  forall m : gmap Z image,
    foldl (fun m k => <[k := f k]> m) m l !! j =
      if decide (j ∈ l) then Some (f j) else m !! j.
Proof.
  induction l as [|k l IH]; intros m; cbn [foldl].
  - rewrite decide_False; [reflexivity|apply not_elem_of_nil].
  - rewrite IH. destruct (decide (j ∈ l)) as [Hin | Hnin].
    + rewrite decide_True; [reflexivity|by right].
    + destruct (decide (j = k)) as [-> | Hne].
      * rewrite lookup_insert_eq, decide_True; [reflexivity|by left].
      * rewrite lookup_insert_ne by done.
        rewrite decide_False; [reflexivity|].
        rewrite not_elem_of_cons. by split.
Qed.

Lemma next_texture_set_levels lv s :
  next_texture (set_bound_levels lv s) = next_texture s.
Proof. unfold set_bound_levels. destruct (bound s); reflexivity. Qed.

Lemma viewport_set_levels lv s :
  viewport (set_bound_levels lv s) = viewport s.
Proof. unfold set_bound_levels. destruct (bound s); reflexivity. Qed.

Lemma active_set_levels lv s :
  active_texture (set_bound_levels lv s) = active_texture s.
Proof. unfold set_bound_levels. destruct (bound s); reflexivity. Qed.

Lemma glGenerateMipmap_frame d s :
  next_texture (glGenerateMipmap d s) = next_texture s /\
  viewport (glGenerateMipmap d s) = viewport s /\
  active_texture (glGenerateMipmap d s) = active_texture s.
Proof.
  unfold glGenerateMipmap. destruct (bound_levels s !! 0); [|by repeat split].
  by rewrite next_texture_set_levels, viewport_set_levels, active_set_levels.
Qed.

Lemma glTexImage2D_frame level w h f data s :
  next_texture (glTexImage2D level w h f data s) = next_texture s /\
  viewport (glTexImage2D level w h f data s) = viewport s /\
  active_texture (glTexImage2D level w h f data s) = active_texture s.
Proof.
  unfold glTexImage2D.
  by rewrite next_texture_set_levels, viewport_set_levels, active_set_levels.
Qed.

(** The state [build_checkerboard] leaves, for arbitrary buffers. *)
Lemma build_chain (c0 c1 c2 c3 : list Z) d s :
  let n := next_texture s in
  let a := unpack_alignment s in
  let s7 :=
    glTexImage2D 3 128 128 GL_RGBA c3
      (glTexImage2D 2 256 256 GL_RGBA c2
         (glTexImage2D 1 512 512 GL_RGBA c1
            (glGenerateMipmap d
               (glTexImage2D 0 img_w img_h GL_RGBA c0
                  (glBindTexture n (snd (glGenTextures s))))))) in
  let base := uploaded a 1024 1024 GL_RGBA c0 in
  bound s7 = Some n /\
  (forall n', n' <> n -> textures s7 !! n' = textures s !! n') /\
  next_texture s7 = n + 1 /\
  viewport s7 = viewport s /\ unpack_alignment s7 = a /\
  active_texture s7 = active_texture s /\ uniforms s7 = uniforms s /\
  bound_levels s7 =
    <[3 := uploaded a 128 128 GL_RGBA c3]>
      (<[2 := uploaded a 256 256 GL_RGBA c2]>
         (<[1 := uploaded a 512 512 GL_RGBA c1]>
            (foldl (fun m k => <[k := d base k]> m)
               (<[0 := base]> ∅) (seqZ 1 10)))).
Proof.
  intros n a s7 base.
  set (s2 := glBindTexture n (snd (glGenTextures s))) in *.
  assert (Hb2 : bound s2 = Some n) by apply glGenTextures_bind.
  assert (Hl2 : bound_levels s2 = ∅).
  { unfold bound_levels. rewrite Hb2. cbn. by rewrite lookup_insert_eq. }
  assert (Ht2 : forall n', n' <> n -> textures s2 !! n' = textures s !! n').
  { intros n' Hn'. cbn. by rewrite lookup_insert_ne. }
  set (s3 := glTexImage2D 0 img_w img_h GL_RGBA c0 s2) in *.
  assert (Hb3 : bound s3 = Some n) by (unfold s3; by rewrite glTexImage2D_bound).
  assert (Hl3 : bound_levels s3 = <[0 := base]> ∅).
  { unfold s3. rewrite (glTexImage2D_levels n) by exact Hb2.
    by rewrite Hl2. }
  set (s4 := glGenerateMipmap d s3) in *.
  assert (Hb4 : bound s4 = Some n)
    by (unfold s4; by rewrite glGenerateMipmap_bound).
  assert (Hl4 : bound_levels s4 =
            foldl (fun m k => <[k := d base k]> m) (<[0 := base]> ∅)
              (seqZ 1 10)).
  { unfold s4, glGenerateMipmap. rewrite Hl3, lookup_insert_eq.
    by rewrite (bound_levels_set n). }
  set (s5 := glTexImage2D 1 512 512 GL_RGBA c1 s4) in *.
  set (s6 := glTexImage2D 2 256 256 GL_RGBA c2 s5) in *.
  assert (Hb5 : bound s5 = Some n) by (unfold s5; by rewrite glTexImage2D_bound).
  assert (Hb6 : bound s6 = Some n) by (unfold s6; by rewrite glTexImage2D_bound).
  assert (Ha3 : unpack_alignment s3 = a)
    by (unfold s3; by rewrite glTexImage2D_alignment).
  assert (Ha4 : unpack_alignment s4 = a)
    by (unfold s4; by rewrite glGenerateMipmap_alignment).
  assert (Ha5 : unpack_alignment s5 = a)
    by (unfold s5; by rewrite glTexImage2D_alignment).
  assert (Ha6 : unpack_alignment s6 = a)
    by (unfold s6; by rewrite glTexImage2D_alignment).
  split; [unfold s7; by rewrite glTexImage2D_bound|].
  split.
  { intros n' Hn'. unfold s7, s6, s5.
    rewrite !(glTexImage2D_textures n) by assumption.
    rewrite !lookup_insert_ne by done.
    unfold s4, glGenerateMipmap. rewrite Hl3, lookup_insert_eq.
    rewrite (textures_set_levels n) by exact Hb3.
    rewrite lookup_insert_ne by done.
    unfold s3. rewrite (glTexImage2D_textures n) by exact Hb2.
    rewrite lookup_insert_ne by done. by apply Ht2. }
  split.
  { unfold s7, s6, s5.
    rewrite !(proj1 (glTexImage2D_frame _ _ _ _ _ _)).
    unfold s4. rewrite (proj1 (glGenerateMipmap_frame _ _)).
    unfold s3. rewrite (proj1 (glTexImage2D_frame _ _ _ _ _ _)).
    reflexivity. }
  split.
  { unfold s7, s6, s5.
    rewrite !(proj1 (proj2 (glTexImage2D_frame _ _ _ _ _ _))).
    unfold s4. rewrite (proj1 (proj2 (glGenerateMipmap_frame _ _))).
    unfold s3. rewrite (proj1 (proj2 (glTexImage2D_frame _ _ _ _ _ _))).
    reflexivity. }
  split; [unfold s7; by rewrite glTexImage2D_alignment|].
  split.
  { unfold s7, s6, s5.
    rewrite !(proj2 (proj2 (glTexImage2D_frame _ _ _ _ _ _))).
    unfold s4. rewrite (proj2 (proj2 (glGenerateMipmap_frame _ _))).
    unfold s3. rewrite (proj2 (proj2 (glTexImage2D_frame _ _ _ _ _ _))).
    reflexivity. }
  split.
  { unfold s7, s6, s5. rewrite !glTexImage2D_uniforms.
    unfold s4. rewrite glGenerateMipmap_uniforms.
    unfold s3. by rewrite glTexImage2D_uniforms. }
  unfold s7. rewrite (glTexImage2D_levels n) by exact Hb6. rewrite Ha6.
  unfold s6. rewrite (glTexImage2D_levels n) by exact Hb5. rewrite Ha5.
  unfold s5. rewrite (glTexImage2D_levels n) by exact Hb4. rewrite Ha4.
  by rewrite Hl4.
Qed.

Lemma build_checkerboard_unfold o d s :
  build_checkerboard o d s =
    (next_texture s,
     glTexImage2D 3 128 128 GL_RGBA (data o blue_mipmap)
       (glTexImage2D 2 256 256 GL_RGBA (data o green_mipmap)
          (glTexImage2D 1 512 512 GL_RGBA (data o red_mipmap)
             (glGenerateMipmap d
                (glTexImage2D 0 img_w img_h GL_RGBA color
                   (glBindTexture (next_texture s)
                      (snd (glGenTextures s)))))))).
Proof. reflexivity. Qed.

Lemma checkerboard_chain (o : byte_order)
    (d : image -> Z -> image) (s : state) (k : Z) :
  let r := build_checkerboard o d s in
  let a := unpack_alignment s in
  let base := uploaded a 1024 1024 GL_RGBA color in
  level_of (fst r) k (snd r) =
    if k =? 0 then Some base
    else if k =? 1 then Some (uploaded a 512 512 GL_RGBA (data o red_mipmap))
    else if k =? 2 then Some (uploaded a 256 256 GL_RGBA (data o green_mipmap))
    else if k =? 3 then Some (uploaded a 128 128 GL_RGBA (data o blue_mipmap))
    else if (4 <=? k) && (k <=? 10) then Some (d base k)
    else None.
Proof.
  intros r a base. unfold r. rewrite build_checkerboard_unfold. cbn [fst snd].
  unfold base. clear r base.
  generalize color, (data o red_mipmap), (data o green_mipmap),
    (data o blue_mipmap).
  intros c0 c1 c2 c3.
  destruct (build_chain c0 c1 c2 c3 d s) as (Hb & _ & _ & _ & _ & _ & _ & Hl).
  rewrite (level_of_bound _ _ _ Hb), Hl. fold a.
  destruct (Z.eqb_spec k 0) as [-> | H0].
  { do 3 rewrite lookup_insert_ne by done.
    rewrite insert_levels_lookup, decide_False.
    - by rewrite lookup_insert_eq.
    - rewrite elem_of_seqZ. lia. }
  destruct (Z.eqb_spec k 1) as [-> | H1].
  { do 2 rewrite lookup_insert_ne by done. by rewrite lookup_insert_eq. }
  destruct (Z.eqb_spec k 2) as [-> | H2].
  { rewrite lookup_insert_ne by done. by rewrite lookup_insert_eq. }
  destruct (Z.eqb_spec k 3) as [-> | H3].
  { by rewrite lookup_insert_eq. }
  do 3 rewrite lookup_insert_ne by done.
  rewrite insert_levels_lookup.
  destruct (Z.leb_spec 4 k), (Z.leb_spec k 10); cbn [andb].
  - rewrite decide_True; [reflexivity|]. rewrite elem_of_seqZ. lia.
  - rewrite decide_False by (rewrite elem_of_seqZ; lia).
    by rewrite lookup_insert_ne.
  - rewrite decide_False by (rewrite elem_of_seqZ; lia).
    by rewrite lookup_insert_ne.
  - rewrite decide_False by (rewrite elem_of_seqZ; lia).
    by rewrite lookup_insert_ne.
Qed.

(** X9: after [build_checkerboard] the texture has exactly the levels 0 to
    10: the checkerboard, the three solid levels, and at levels 4 to 10
    what mipmap generation derived from the checkerboard, which the three
    uploads do not touch. *)
Theorem X9_checkerboard_mip_chain (o : byte_order)
    (d : image -> Z -> image) (s : state) (k : Z) :
  let r := build_checkerboard o d s in
  let a := unpack_alignment s in
  let base := uploaded a 1024 1024 GL_RGBA color in
  level_of (fst r) k (snd r) =
    if k =? 0 then Some base
    else if k =? 1 then Some (uploaded a 512 512 GL_RGBA (data o red_mipmap))
    else if k =? 2 then Some (uploaded a 256 256 GL_RGBA (data o green_mipmap))
    else if k =? 3 then Some (uploaded a 128 128 GL_RGBA (data o blue_mipmap))
    else if (4 <=? k) && (k <=? 10) then Some (d base k)
    else None.
Proof. apply checkerboard_chain. Qed.

Lemma build_checkerboard_rest (o : byte_order)
    (d : image -> Z -> image) (s : state) :
  let r := build_checkerboard o d s in
  fst r = next_texture s /\
  bound (snd r) = Some (fst r) /\
  (forall name level, name <> fst r ->
     level_of name level (snd r) = level_of name level s) /\
  next_texture (snd r) = next_texture s + 1 /\
  viewport (snd r) = viewport s /\
  unpack_alignment (snd r) = unpack_alignment s /\
  active_texture (snd r) = active_texture s /\
  uniforms (snd r) = uniforms s.
Proof.
  intros r. unfold r. rewrite build_checkerboard_unfold. cbn [fst snd].
  clear r.
  generalize color, (data o red_mipmap), (data o green_mipmap),
    (data o blue_mipmap).
  intros c0 c1 c2 c3.
  destruct (build_chain c0 c1 c2 c3 d s)
    as (Hb & Ht & Hn & Hv & Ha & Hact & Hu & _).
  split; [reflexivity|]. split; [exact Hb|]. split.
  { intros name level Hne. unfold level_of. by rewrite Ht. }
  by repeat split.
Qed.

(** X10: [build_checkerboard] returns the next free texture name and
    leaves that texture bound on the active unit; it touches no other
    texture, and neither the viewport, the unpack alignment, the active
    unit nor the uniforms; the next free name moves on by one. *)
Theorem X10_build_checkerboard_frame (o : byte_order)
    (d : image -> Z -> image) (s : state) :
  let r := build_checkerboard o d s in
  fst r = next_texture s /\
  bound (snd r) = Some (fst r) /\
  (forall name level, name <> fst r ->
     level_of name level (snd r) = level_of name level s) /\
  next_texture (snd r) = next_texture s + 1 /\
  viewport (snd r) = viewport s /\
  unpack_alignment (snd r) = unpack_alignment s /\
  active_texture (snd r) = active_texture s /\
  uniforms (snd r) = uniforms s.
Proof. apply build_checkerboard_rest. Qed.

Lemma data_length o v : length (data o v) = (length v * 4)%nat.
Proof.
  unfold data. rewrite length_join, (sum_list_fmap_same 4).
  - by rewrite length_fmap.
  - apply Forall_fmap, Forall_forall. intros w _. by destruct o.
Qed.

(** X11: each of the four buffers handed to [glTexImage2D] holds exactly
    the bytes the call reads, the height of the level times its row
    stride: no upload reads past the end of its vector. *)
Theorem X11_upload_buffers_fit (o : byte_order)
    (d : image -> Z -> image) (s : state) (k : Z) :
  valid_alignment (unpack_alignment s) ->
  0 <= k <= 3 ->
  let r := build_checkerboard o d s in
  exists im,
    level_of (fst r) k (snd r) = Some im /\
    Z.of_nat (length (img_data im)) = img_height im * row_stride im.
Proof.
  intros Hal Hk r.
  pose proof (checkerboard_chain o d s k) as Hchain.
  cbv zeta in Hchain. fold r in Hchain.
  assert (Hcases : k = 0 \/ k = 1 \/ k = 2 \/ k = 3) by lia.
  destruct Hcases as [-> | [-> | [-> | ->]]]; cbn [Z.eqb] in Hchain;
    eexists; (split; [exact Hchain|]);
    cbn [img_data img_height row_stride uploaded];
    rewrite stride_RGBA by (first [exact Hal | cbn; tauto]).
  - unfold color. rewrite fill_length. unfold img_w, img_h. lia.
  - rewrite data_length. unfold red_mipmap. rewrite length_replicate. lia.
  - rewrite data_length. unfold green_mipmap. rewrite length_replicate. lia.
  - rewrite data_length. unfold blue_mipmap. rewrite length_replicate. lia.
Qed.

Lemma X11_upload_buffers_fit_witness :
  exists im,
    level_of (fst (build_checkerboard LittleEndian (fun im _ => im)
                     (GL.initial 800 600))) 2
      (snd (build_checkerboard LittleEndian (fun im _ => im)
              (GL.initial 800 600))) = Some im /\
    Z.of_nat (length (img_data im)) = img_height im * row_stride im.
Proof.
  apply (X11_upload_buffers_fit LittleEndian (fun im _ => im)
           (GL.initial 800 600) 2).
  - right. right. left. reflexivity.
  - lia.
Defined.

End TextureBankFacts.

Section AnimatedTextureFacts.
Import GL Checkerboard App Trace.

Lemma poll_events_gl events : forall a,
  textures (gl (poll_events events a)) = textures (gl a) /\
  texture_binding_2d (gl (poll_events events a)) = texture_binding_2d (gl a) /\
  unpack_alignment (gl (poll_events events a)) = unpack_alignment (gl a).
Proof.
  induction events as [|event rest IH]; intros a; [by repeat split|].
  change (poll_events (event :: rest) a)
    with (poll_events rest (handle_event event a)).
  destruct (IH (handle_event event a)) as (-> & -> & ->).
  apply handle_event_gl.
Qed.

Lemma glUniform1i_rest location v s :
  textures (glUniform1i location v s) = textures s /\
  texture_binding_2d (glUniform1i location v s) = texture_binding_2d s /\
  viewport (glUniform1i location v s) = viewport s.
Proof. unfold glUniform1i. destruct (location =? -1); by repeat split. Qed.

Lemma glUniformMatrix4fv_rest location t m s :
  textures (glUniformMatrix4fv location t m s) = textures s /\
  texture_binding_2d (glUniformMatrix4fv location t m s) =
    texture_binding_2d s /\
  viewport (glUniformMatrix4fv location t m s) = viewport s.
Proof. unfold glUniformMatrix4fv. destruct (location =? -1); by repeat split. Qed.

Lemma glTexSubImage2D_rest level w h f data s :
  bound (glTexSubImage2D level w h f data s) = bound s /\
  viewport (glTexSubImage2D level w h f data s) = viewport s.
Proof.
  unfold glTexSubImage2D. destruct (bound_levels s !! level); [|by split].
  destruct (_ && _); [|by split].
  split; [apply glTexImage2D_bound | apply glTexImage2D_frame].
Qed.

(** The OpenGL state a frame leaves: the state [g] with both textures
    bound, and on it the new image when the frame has changed. *)
Lemma frame_gl p r tbl dt a a' :
  frame p r tbl dt a = Ok a' ->
  exists g,
    bound g = Some (tex_img r) /\
    textures g = textures (gl a) /\
    viewport g = viewport (gl a) /\
    if Clock.curr_frame_changed (Clock.step dt (clk a)) then
      exists pixels,
        array_at tbl (Clock.curr_frame (Clock.step dt (clk a))) = Ok pixels /\
        gl a' =
          glGenerateMipmap (downsample p)
            (glTexSubImage2D 0 498 498 GL_RGB pixels
               (glPixelStorei_UNPACK_ALIGNMENT 1 g))
    else gl a' = g.
Proof.
  unfold frame. cbn [clk set_clk gl].
  set (g := glBindTexture (tex_img r) _).
  assert (Hb : bound g = Some (tex_img r))
    by (unfold bound; cbn; by rewrite lookup_insert_eq).
  assert (Ht : textures g = textures (gl a)).
  { cbn [g glBindTexture glActiveTexture set_active_texture textures].
    rewrite !(proj1 (glUniform1i_rest _ _ _)).
    by rewrite !(proj1 (glUniformMatrix4fv_rest _ _ _ _)). }
  assert (Hv : viewport g = viewport (gl a)).
  { cbn [g glBindTexture glActiveTexture set_active_texture viewport].
    rewrite !(proj2 (proj2 (glUniform1i_rest _ _ _))).
    by rewrite !(proj2 (proj2 (glUniformMatrix4fv_rest _ _ _ _))). }
  intros Hf. exists g. split; [exact Hb|]. split; [exact Ht|].
  split; [exact Hv|].
  destruct (Clock.curr_frame_changed (Clock.step dt (clk a))).
  - destruct (array_at tbl _) as [pixels | |]; [|discriminate..].
    cbn [bind] in Hf. injection Hf as <-. exists pixels. by split.
  - injection Hf as <-. reflexivity.
Qed.

(** What the setup leaves in the OpenGL state. *)
Lemma setup_gl p tbl r a :
  setup p tbl = Ok (r, a) ->
  let cb := build_checkerboard (byte_order p) (downsample p) (linked p) in
  exists pixels,
    array_at tbl 0 = Ok pixels /\
    texture r = fst cb /\
    tex_img r = next_texture (snd cb) /\
    gl a =
      glGenerateMipmap (downsample p)
        (glTexImage2D 0 498 498 GL_RGB pixels
           (glPixelStorei_UNPACK_ALIGNMENT 1
              (glBindTexture (next_texture (snd cb))
                 (snd (glGenTextures (snd cb)))))).
Proof.
  unfold linked.
  unfold setup, when, sdl2_fail, glew_fail, create_shader, create_program.
  destruct (SDL_Init p =? 0); [|discriminate].
  destruct (SDL_CreateWindow p); [|discriminate].
  destruct (SDL_GetWindowSize p) as [w h].
  destruct (SDL_GL_CreateContext p); [|discriminate].
  destruct (glewInit p =? GLEW_NO_ERROR); [|discriminate].
  destruct (GLEW_VERSION_3_3 p); [|discriminate].
  destruct (GL_COMPILE_STATUS p GL_VERTEX_SHADER); [|discriminate].
  destruct (GL_COMPILE_STATUS p GL_FRAGMENT_SHADER); [|discriminate].
  destruct (GL_LINK_STATUS p); [|discriminate].
  cbn [negb bind fst snd].
  destruct (build_checkerboard _ _ _) as [texture g].
  destruct (array_at tbl 0) as [pixels | |]; [|discriminate..].
  cbn [bind glGenTextures fst snd]. intros [= <- <-].
  exists pixels. by repeat split.
Qed.

(** Uploading a frame to the bound texture and regenerating its mipmaps
    leaves the frame at level 0 and every other texture as it was. *)
Lemma upload_frame_image n d pixels s :
  bound s = Some n ->
  unpack_alignment s = 1 ->
  let s' := glGenerateMipmap d (glTexImage2D 0 498 498 GL_RGB pixels s) in
  level_of n 0 s' = Some (uploaded 1 498 498 GL_RGB pixels) /\
  forall n', n' <> n -> textures s' !! n' = textures s !! n'.
Proof.
  intros Hb Hal s'.
  set (s1 := glTexImage2D 0 498 498 GL_RGB pixels s) in *.
  assert (Hb1 : bound s1 = Some n) by (unfold s1; by rewrite glTexImage2D_bound).
  assert (Hl1 : bound_levels s1 !! 0 = Some (uploaded 1 498 498 GL_RGB pixels)).
  { unfold s1. rewrite (glTexImage2D_levels n) by exact Hb.
    by rewrite Hal, lookup_insert_eq. }
  destruct (glGenerateMipmap_textures n d s1 _ Hb1 Hl1) as (lv & Ht & Hlv).
  fold s' in Ht. split.
  - unfold level_of. rewrite Ht, lookup_insert_eq. exact Hlv.
  - intros n' Hn'. rewrite Ht, lookup_insert_ne by done.
    unfold s1. rewrite (glTexImage2D_textures n) by exact Hb.
    by rewrite lookup_insert_ne.
Qed.

(** The same for a texture that is generated and bound first. *)
Lemma upload_first_frame d pixels s :
  let n := next_texture s in
  let s' :=
    glGenerateMipmap d
      (glTexImage2D 0 498 498 GL_RGB pixels
         (glPixelStorei_UNPACK_ALIGNMENT 1
            (glBindTexture n (snd (glGenTextures s))))) in
  level_of n 0 s' = Some (uploaded 1 498 498 GL_RGB pixels) /\
  forall n', n' <> n -> textures s' !! n' = textures s !! n'.
Proof.
  intros n s'.
  set (s2 := glPixelStorei_UNPACK_ALIGNMENT 1
               (glBindTexture n (snd (glGenTextures s)))) in *.
  assert (Hb2 : bound s2 = Some n) by apply (glGenTextures_bind s).
  destruct (upload_frame_image n d pixels s2 Hb2 eq_refl) as (Hlevel & Hother).
  split; [exact Hlevel|].
  intros n' Hn'. unfold s'. rewrite Hother by exact Hn'.
  cbn. by rewrite lookup_insert_ne.
Qed.

Lemma step_frame_kept dt c :
  Clock.curr_frame_changed (Clock.step dt c) = false ->
  Clock.curr_frame (Clock.step dt c) = Clock.curr_frame c.
Proof.
  rewrite step_changed, step_frame. by intros ->.
Qed.

(** In every state the loop can reach, the two textures have different
    names, the checkerboard texture is as the setup built it, and the
    animated texture shows the frame the counter stands at. *)
Lemma reachable_textures p tbl r a :
  reachable p tbl r a ->
  let cb := build_checkerboard (byte_order p) (downsample p) (linked p) in
  texture r = fst cb /\ tex_img r = fst cb + 1 /\
  textures (gl a) !! texture r = textures (snd cb) !! fst cb /\
  shows_frame tbl r a.
Proof.
  intros Hr cb.
  pose proof (build_checkerboard_rest (byte_order p) (downsample p) (linked p))
    as (Hfst & _ & _ & Hnext & _).
  pose proof (fun a => setup_gl p tbl r a) as Hsetup.
  cbv zeta in Hsetup. fold cb in Hfst, Hnext, Hsetup. clearbody cb.
  induction Hr as [a Hs | a events dt a' Hr IH Hrun Hf].
  - pose proof (setup_inv _ _ _ _ Hs) as (Hclk & _).
    destruct (Hsetup _ Hs) as (pixels & Hpx & Htex & Himg & Hgl).
    assert (Himg' : tex_img r = fst cb + 1) by (rewrite Himg, Hnext, Hfst; lia).
    destruct (upload_first_frame (downsample p) pixels (snd cb))
      as (Hlevel & Hother).
    cbv zeta in Hlevel, Hother. rewrite <- Hgl, <- Himg in Hlevel.
    rewrite <- Hgl, <- Himg in Hother.
    split; [exact Htex|]. split; [exact Himg'|]. split.
    + rewrite Hother by (rewrite Htex, Himg'; lia). by rewrite Htex.
    + exists pixels. rewrite Hclk. by split.
  - destruct IH as (Htex & Himg & Hcb & (old & Hold & Hlevel)).
    pose proof (frame_inv _ _ _ _ _ _ Hf) as (Hclk & _).
    rewrite poll_events_clk in Hclk.
    destruct (frame_gl _ _ _ _ _ _ Hf) as (g & Hb & Ht & _ & Hcase).
    rewrite (proj1 (poll_events_gl events a)) in Ht.
    rewrite poll_events_clk in Hcase.
    split; [exact Htex|]. split; [exact Himg|].
    destruct (Clock.curr_frame_changed (Clock.step dt (clk a))) eqn:Hch.
    + destruct Hcase as (pixels & Hpx & Hgl).
      set (g1 := glPixelStorei_UNPACK_ALIGNMENT 1 g) in *.
      assert (Hb1 : bound g1 = Some (tex_img r)) by exact Hb.
      assert (Hsub : glTexSubImage2D 0 498 498 GL_RGB pixels g1 =
                     glTexImage2D 0 498 498 GL_RGB pixels g1).
      { unfold glTexSubImage2D.
        assert (Hl : bound_levels g1 !! 0 =
                     Some (uploaded 1 498 498 GL_RGB old)).
        { unfold bound_levels. rewrite Hb1. cbn [mbind option_bind].
          change (textures g1) with (textures g). rewrite Ht.
          unfold level_of in Hlevel.
          destruct (textures (gl a) !! tex_img r); [exact Hlevel|discriminate]. }
        rewrite Hl. reflexivity. }
      rewrite Hsub in Hgl.
      destruct (upload_frame_image (tex_img r) (downsample p) pixels g1 Hb1
                  eq_refl) as (Hlevel' & Hother).
      rewrite <- Hgl in Hlevel', Hother. split.
      * rewrite Hother by (rewrite Htex, Himg; lia).
        change (textures g1) with (textures g). by rewrite Ht.
      * exists pixels. rewrite Hclk. by split.
    + rewrite Hcase. split.
      * by rewrite Ht.
      * exists old. rewrite Hclk, (step_frame_kept _ _ Hch), Hcase.
        split; [exact Hold|]. unfold level_of in *. by rewrite Ht.
Qed.

(** X12: in every state the loop can reach, level 0 of the animated
    texture is the frame [test_image_data[curr_frame]], 498 by 498 RGB with
    tightly packed rows: what is on the texture never lags behind the
    counter. *)
Theorem X12_animated_texture_shows_current_frame (p : platform)
    (tbl : list (list Z)) (r : resources) (a : app) :
  reachable p tbl r a ->
  exists pixels,
    array_at tbl (Clock.curr_frame (clk a)) = Ok pixels /\
    level_of (tex_img r) 0 (gl a) = Some (uploaded 1 498 498 GL_RGB pixels) /\
    row_stride (uploaded 1 498 498 GL_RGB pixels) = 498 * 3.
Proof.
  intros Hr.
  destruct (reachable_textures p tbl r a Hr) as (_ & _ & _ & px & Hpx & Hl).
  exists px. by repeat split.
Qed.

Lemma X12_animated_texture_shows_current_frame_witness :
  exists r a pixels,
    reachable working_platform blank_frames r a /\
    array_at blank_frames (Clock.curr_frame (clk a)) = Ok pixels /\
    level_of (tex_img r) 0 (gl a) = Some (uploaded 1 498 498 GL_RGB pixels).
Proof.
  destruct working_platform_setup as (r & a & Hs).
  assert (Hr : reachable working_platform blank_frames r a)
    by (apply reach_setup, Hs).
  destruct (X12_animated_texture_shows_current_frame working_platform
              blank_frames r a Hr) as (pixels & Hpx & Hl & _).
  exists r, a, pixels. by repeat split.
Defined.

(** X13: the loop never alters the checkerboard texture: in every state it
    can reach, each of its levels is as [build_checkerboard] left it, and
    its name differs from that of the animated texture. *)
Theorem X13_loop_keeps_checkerboard (p : platform) (tbl : list (list Z))
    (r : resources) (a : app) (level : Z) :
  reachable p tbl r a ->
  let cb := build_checkerboard (byte_order p) (downsample p) (linked p) in
  texture r <> tex_img r /\
  level_of (texture r) level (gl a) = level_of (fst cb) level (snd cb).
Proof.
  intros Hr cb.
  pose proof (reachable_textures p tbl r a Hr) as Hinv.
  cbv zeta in Hinv. fold cb in Hinv. clearbody cb.
  destruct Hinv as (Htex & Himg & Hcb & _).
  split; [lia|]. unfold level_of. by rewrite Hcb.
Qed.

Lemma X13_loop_keeps_checkerboard_witness :
  exists r a,
    reachable working_platform blank_frames r a /\
    texture r <> tex_img r /\
    level_of (texture r) 2 (gl a) =
      level_of
        (fst (build_checkerboard (byte_order working_platform)
                (downsample working_platform) (linked working_platform))) 2
        (snd (build_checkerboard (byte_order working_platform)
                (downsample working_platform) (linked working_platform))).
Proof.
  destruct working_platform_setup as (r & a & Hs).
  assert (Hr : reachable working_platform blank_frames r a)
    by (apply reach_setup, Hs).
  exists r, a. split; [exact Hr|].
  apply (X13_loop_keeps_checkerboard working_platform blank_frames r a 2 Hr).
Defined.

(** X14: a frame changes nothing of the window state: width, height,
    [running] and [button_down] are as before, and so is the viewport;
    the clock has made exactly one step. *)
Theorem X14_frame_keeps_window_state (p : platform) (r : resources)
    (tbl : list (list Z)) (dt : F32.t) (a a' : app) :
  frame p r tbl dt a = Ok a' ->
  width a' = width a /\ height a' = height a /\
  running a' = running a /\ button_down a' = button_down a /\
  viewport (gl a') = viewport (gl a) /\
  clk a' = Clock.step dt (clk a).
Proof.
  intros Hf.
  pose proof (frame_inv _ _ _ _ _ _ Hf) as (Hclk & Hrun & Hw & Hh).
  destruct (frame_gl _ _ _ _ _ _ Hf) as (g & _ & _ & Hv & Hcase).
  split; [exact Hw|]. split; [exact Hh|]. split; [exact Hrun|].
  split; [|split; [|exact Hclk]].
  - revert Hf. unfold frame. cbn [clk set_clk].
    destruct (Clock.curr_frame_changed _).
    + destruct (array_at tbl _); [|discriminate..].
      cbn [bind]. by intros [= <-].
    + by intros [= <-].
  - destruct (Clock.curr_frame_changed _).
    + destruct Hcase as (pixels & _ & ->).
      rewrite (proj1 (proj2 (glGenerateMipmap_frame _ _))).
      rewrite (proj2 (glTexSubImage2D_rest _ _ _ _ _ _)). exact Hv.
    + by rewrite Hcase.
Qed.

Lemma X14_frame_keeps_window_state_witness :
  exists r a a',
    frame working_platform r blank_frames Clock.dt_60fps a = Ok a' /\
    width a' = width a /\ button_down a' = button_down a /\
    viewport (gl a') = viewport (gl a).
Proof.
  destruct working_platform_setup as (r & a & Hs).
  assert (Hr : reachable working_platform blank_frames r a)
    by (apply reach_setup, Hs).
  destruct (frame_ok working_platform r blank_frames Clock.dt_60fps a eq_refl
              (reachable_bounded _ _ _ _ Hr)) as (a' & Hf).
  exists r, a, a'. split; [exact Hf|].
  destruct (X14_frame_keeps_window_state _ _ _ _ _ _ Hf)
    as (Hw & _ & _ & Hb & Hv & _).
  by repeat split.
Defined.

End AnimatedTextureFacts.

Section UniformAndErrorFacts.
Import GL App Trace.

Lemma glUniformMatrix4fv_lookup_eq location t m s :
  location <> -1 ->
  uniforms (glUniformMatrix4fv location t m s) !! location = Some (Mat4 t m).
Proof.
  intros Hl. unfold glUniformMatrix4fv.
  destruct (Z.eqb_spec location (-1)); [contradiction|].
  cbn [uniforms set_uniforms]. apply lookup_insert_eq.
Qed.

Lemma frame_matrices (p : platform) (tbl : list (list Z))
    (r : resources) (a : app) (events : list SDL_Event) (dt : F32.t)
    (a' : app) :
  active_uniforms p ->
  reachable p tbl r a ->
  frame p r tbl dt (poll_events events a) = Ok a' ->
  uniforms (gl a') !! glGetUniformLocation p "view" =
    Some (Mat4 true (Projection.view (cos p) (sin p))) /\
  uniforms (gl a') !! glGetUniformLocation p "projection" =
    Some (Mat4 true
            (Projection.projection (width (poll_events events a))
               (height (poll_events events a)))).
Proof.
  intros Hact Hr Hf.
  destruct (reachable_setup _ _ _ _ Hr) as [a0 Hs0].
  pose proof (active_uniforms_inv p Hact)
    as ((Hv & Hp & Ht & _) & _ & _ & _ & Hvt & Hpt).
  assert (Hvp : glGetUniformLocation p "view" <>
                glGetUniformLocation p "projection").
  { destruct Hact as [Hnd _]. unfold uniform_names in Hnd.
    cbn [fmap list_fmap] in Hnd.
    rewrite !NoDup_cons, !not_elem_of_cons in Hnd. tauto. }
  apply setup_inv in Hs0 as (_ & _ & _ & Ev & Ep & Et & Eti & _).
  rewrite (frame_uniforms _ _ _ _ _ _ Hf), Ev, Ep, Et, Eti.
  rewrite !GLint_of_GLuint by lia.
  rewrite !glUniform1i_lookup by lia.
  split.
  - destruct (decide _) as [E | _]; [by destruct Hvt|].
    rewrite glUniformMatrix4fv_lookup by (intros E; by destruct Hvp).
    apply glUniformMatrix4fv_lookup_eq. lia.
  - destruct (decide _) as [E | _]; [by destruct Hpt|].
    apply glUniformMatrix4fv_lookup_eq. lia.
Qed.

(** X15: every frame leaves, at the locations of [view] and [projection],
    the two arrays it has just built, flagged for transposition; the
    sampler writes that follow do not disturb them. *)
Theorem X15_frame_uploads_matrices (p : platform) (tbl : list (list Z))
    (r : resources) (a : app) (events : list SDL_Event) (dt : F32.t)
    (a' : app) :
  active_uniforms p ->
  reachable p tbl r a ->
  frame p r tbl dt (poll_events events a) = Ok a' ->
  uniforms (gl a') !! glGetUniformLocation p "view" =
    Some (Mat4 true (Projection.view (cos p) (sin p))) /\
  uniforms (gl a') !! glGetUniformLocation p "projection" =
    Some (Mat4 true
            (Projection.projection (width (poll_events events a))
               (height (poll_events events a)))).
Proof. apply frame_matrices. Qed.

Lemma X15_frame_uploads_matrices_witness :
  exists r a a',
    frame working_platform r blank_frames Clock.dt_60fps
      (poll_events [SDL_WINDOWEVENT SDL_WINDOWEVENT_RESIZED 1024 768] a) =
      Ok a' /\
    uniforms (gl a') !! 1 = Some (Mat4 true (Projection.projection 1024 768)).
Proof.
  destruct working_platform_setup as (r & a & Hs).
  assert (Hr : reachable working_platform blank_frames r a)
    by (apply reach_setup, Hs).
  destruct (frame_ok working_platform r blank_frames Clock.dt_60fps
              (poll_events [SDL_WINDOWEVENT SDL_WINDOWEVENT_RESIZED 1024 768] a)
              eq_refl) as (a' & Hf).
  { rewrite poll_events_clk. apply (reachable_bounded _ _ _ _ Hr). }
  exists r, a, a'. split; [exact Hf|].
  apply (X15_frame_uploads_matrices working_platform blank_frames r a
           [SDL_WINDOWEVENT SDL_WINDOWEVENT_RESIZED 1024 768]
           Clock.dt_60fps a' working_platform_active Hr Hf).
Defined.

(** X16: a location kept in a [GLuint] and handed back as a [GLint] is the
    location [glGetUniformLocation] returned, -1 included, and a write to
    the location -1 leaves the state as it is. *)
Theorem X16_location_survives_GLuint (x : Z) :
  - 2 ^ 31 <= x < 2 ^ 31 ->
  to_GLint (to_GLuint x) = x /\
  0 <= to_GLuint x < 2 ^ 32 /\
  forall v t m s,
    glUniform1i (to_GLint (to_GLuint (-1))) v s = s /\
    glUniformMatrix4fv (to_GLint (to_GLuint (-1))) t m s = s.
Proof.
  intros Hx. split; [by apply GLint_of_GLuint|]. split.
  - unfold to_GLuint. apply Z.mod_pos_bound. lia.
  - intros v t m s. by split.
Qed.

Lemma X16_location_survives_GLuint_witness :
  to_GLint (to_GLuint (-1)) = -1 /\ to_GLuint (-1) = 4294967295.
Proof.
  split; [|reflexivity].
  apply (X16_location_survives_GLuint (-1)). lia.
Defined.

(** X17: the setup reports its first failing step and nothing after it:
    each check, when those before it pass, throws its own message,
    whatever the later answers of the platform would have been. *)
Theorem X17_first_failure_is_reported (p : platform) (tbl : list (list Z)) :
  (SDL_Init p <> 0 ->
   setup p tbl = Throw ("SDL_Init: " +:+ SDL_GetError p)) /\
  (SDL_Init p = 0 -> SDL_CreateWindow p = false ->
   setup p tbl = Throw ("SDL_CreateWindow: " +:+ SDL_GetError p)) /\
  (SDL_Init p = 0 -> SDL_CreateWindow p = true ->
   SDL_GL_CreateContext p = false ->
   setup p tbl = Throw ("SDL_GL_CreateContext: " +:+ SDL_GetError p)) /\
  (SDL_Init p = 0 -> SDL_CreateWindow p = true ->
   SDL_GL_CreateContext p = true -> glewInit p <> GLEW_NO_ERROR ->
   setup p tbl =
     Throw ("glewInit: " +:+ glewGetErrorString p (glewInit p))) /\
  (SDL_Init p = 0 -> SDL_CreateWindow p = true ->
   SDL_GL_CreateContext p = true -> glewInit p = GLEW_NO_ERROR ->
   GLEW_VERSION_3_3 p = false ->
   setup p tbl = Throw "OpenGL 3.3 is not supported") /\
  (SDL_Init p = 0 -> SDL_CreateWindow p = true ->
   SDL_GL_CreateContext p = true -> glewInit p = GLEW_NO_ERROR ->
   GLEW_VERSION_3_3 p = true ->
   GL_COMPILE_STATUS p GL_VERTEX_SHADER = false ->
   setup p tbl =
     Throw ("Shader compilation failed: "
            +:+ shader_info_log p GL_VERTEX_SHADER)) /\
  (SDL_Init p = 0 -> SDL_CreateWindow p = true ->
   SDL_GL_CreateContext p = true -> glewInit p = GLEW_NO_ERROR ->
   GLEW_VERSION_3_3 p = true ->
   GL_COMPILE_STATUS p GL_VERTEX_SHADER = true ->
   GL_COMPILE_STATUS p GL_FRAGMENT_SHADER = false ->
   setup p tbl =
     Throw ("Shader compilation failed: "
            +:+ shader_info_log p GL_FRAGMENT_SHADER)) /\
  (SDL_Init p = 0 -> SDL_CreateWindow p = true ->
   SDL_GL_CreateContext p = true -> glewInit p = GLEW_NO_ERROR ->
   GLEW_VERSION_3_3 p = true ->
   GL_COMPILE_STATUS p GL_VERTEX_SHADER = true ->
   GL_COMPILE_STATUS p GL_FRAGMENT_SHADER = true ->
   GL_LINK_STATUS p = false ->
   setup p tbl = Throw ("Program linkage failed: " +:+ program_info_log p)).
Proof.
  unfold setup, when, sdl2_fail, glew_fail, create_shader, create_program.
  destruct (SDL_GetWindowSize p) as [w h].
  repeat split; intros;
    repeat match goal with
      | H : _ = true |- _ => rewrite H
      | H : _ = false |- _ => rewrite H
      | H : SDL_Init p = 0 |- _ => rewrite H
      | H : glewInit p = GLEW_NO_ERROR |- _ => rewrite H
      end; cbn [Z.eqb negb bind]; try reflexivity.
  - destruct (Z.eqb_spec (SDL_Init p) 0); [contradiction|reflexivity].
  - destruct (Z.eqb_spec (glewInit p) GLEW_NO_ERROR); [contradiction|reflexivity].
Qed.

Lemma X17_first_failure_is_reported_witness :
  setup headless_platform blank_frames =
    Throw "SDL_Init: No available video device".
Proof.
  apply (proj1 (X17_first_failure_is_reported headless_platform blank_frames)).
  discriminate.
Defined.

(** X18: the message a failing setup throws is one of eight, each naming
    the step that failed. *)
Theorem X18_thrown_message_names_step (p : platform) (tbl : list (list Z))
    (what : string) :
  setup p tbl = Throw what -> what ∈ setup_messages p.
Proof.
  unfold setup, when, sdl2_fail, glew_fail, create_shader, create_program,
    setup_messages.
  destruct (SDL_Init p =? 0); cbn [negb bind];
    [|intros [= <-]; apply list_elem_of_here].
  destruct (SDL_CreateWindow p); cbn [negb bind];
    [|intros [= <-]; do 1 apply list_elem_of_further; apply list_elem_of_here].
  destruct (SDL_GetWindowSize p) as [w h].
  destruct (SDL_GL_CreateContext p); cbn [negb bind];
    [|intros [= <-]; do 2 apply list_elem_of_further; apply list_elem_of_here].
  destruct (glewInit p =? GLEW_NO_ERROR); cbn [negb bind];
    [|intros [= <-]; do 3 apply list_elem_of_further; apply list_elem_of_here].
  destruct (GLEW_VERSION_3_3 p); cbn [negb bind];
    [|intros [= <-]; do 4 apply list_elem_of_further; apply list_elem_of_here].
  destruct (GL_COMPILE_STATUS p GL_VERTEX_SHADER); cbn [negb bind];
    [|intros [= <-]; do 5 apply list_elem_of_further; apply list_elem_of_here].
  destruct (GL_COMPILE_STATUS p GL_FRAGMENT_SHADER); cbn [negb bind];
    [|intros [= <-]; do 6 apply list_elem_of_further; apply list_elem_of_here].
  destruct (GL_LINK_STATUS p); cbn [negb bind];
    [|intros [= <-]; do 7 apply list_elem_of_further; apply list_elem_of_here].
  destruct (Checkerboard.build_checkerboard _ _ _) as [texture g].
  unfold array_at. cbn [Z.ltb Z.compare].
  destruct (tbl !! Z.to_nat 0); cbn [bind glGenTextures]; intros [=].
Qed.

Lemma X18_thrown_message_names_step_witness :
  "SDL_Init: No available video device"%string ∈
    setup_messages headless_platform.
Proof.
  apply (X18_thrown_message_names_step headless_platform blank_frames).
  reflexivity.
Defined.

Lemma c_str_nul_free s : nul_free (c_str s) = true.
Proof.
  induction s as [|c rest IH]; [reflexivity|]. cbn [c_str].
  destruct (Ascii.eqb c Ascii.zero) eqn:Hc; [reflexivity|].
  cbn [nul_free]. by rewrite Hc, IH.
Qed.

Lemma c_str_id s : nul_free s = true -> c_str s = s.
Proof.
  induction s as [|c rest IH]; [reflexivity|]. cbn [nul_free c_str].
  destruct (Ascii.eqb c Ascii.zero); [discriminate|].
  cbn [negb andb]. intros H. by rewrite IH.
Qed.

Lemma c_str_cut a b :
  nul_free a = true -> c_str (a +:+ String Ascii.zero b) = a.
Proof.
  induction a as [|c rest IH]; simpl; [reflexivity|].
  destruct (Ascii.eqb c Ascii.zero); simpl; [discriminate|].
  intros H. f_equal. apply IH, H.
Qed.

(** X19: what reaches the error stream holds no NUL character; a message
    free of NULs is printed whole, and one that holds a NUL, as an
    information log with its terminator does, is printed up to the first
    of them. *)
Theorem X19_printed_message (s a b : string) :
  nul_free (c_str s) = true /\
  (nul_free s = true -> c_str s = s) /\
  (nul_free a = true -> c_str (a +:+ String Ascii.zero b) = a).
Proof.
  split; [apply c_str_nul_free|]. split; [apply c_str_id|apply c_str_cut].
Qed.

Lemma X19_printed_message_witness :
  c_str ("Shader compilation failed: 0:1: error" +:+ String Ascii.zero "junk") =
    "Shader compilation failed: 0:1: error"%string.
Proof.
  apply (X19_printed_message EmptyString
           "Shader compilation failed: 0:1: error" "junk").
  reflexivity.
Defined.

End UniformAndErrorFacts.

Section ProjectionShapeFacts.
Import Projection.

(** X20: resizing the window changes entry (0,0) of the projection and no
    other: every other entry is the same [float] at every window size, in
    particular (1,1), which is exactly 1, and (3,2), which is -1. *)
Theorem X20_only_first_entry_depends_on_size
    (width height width' height' i j : Z) :
  0 < 4 * i + j ->
  entry (projection width height) i j = entry (projection width' height') i j /\
  entry (projection width height) 1 1 = Some f1 /\
  entry (projection width height) 3 2 = Some (F32.opp f1).
Proof.
  intros Hij.
  assert (H11 : F32.div near top = f1) by (vm_compute; reflexivity).
  split; [|split].
  - unfold entry, projection, matrix.
    destruct (Z.to_nat (4 * i + j)) as [|n] eqn:Hn; [lia|]. reflexivity.
  - unfold entry, projection, matrix. cbn [Z.to_nat]. by rewrite H11.
  - reflexivity.
Qed.

Lemma X20_only_first_entry_depends_on_size_witness :
  entry (projection 800 600) 2 3 = entry (projection 1920 1080) 2 3.
Proof.
  apply (X20_only_first_entry_depends_on_size 800 600 1920 1080 2 3). lia.
Defined.

End ProjectionShapeFacts.

Section ClockCycleFacts.
Import Clock.

(** X21: from any state with the counter in range, the frame index after a
    run is the starting index moved on by the number of advances, modulo
    15; so a run with a multiple of 15 advances shows the starting frame
    again, and a run without any leaves the frame alone. *)
Theorem X21_animation_cycles (dts : list F32.t) (c : clock) (k : Z) :
  0 <= curr_frame c < 15 ->
  curr_frame (run dts c) = (curr_frame c + advances dts c) mod 15 /\
  (advances dts c = 15 * k -> curr_frame (run dts c) = curr_frame c).
Proof.
  intros Hc. rewrite (run_advances dts c Hc). split; [reflexivity|].
  intros ->. rewrite Z.mul_comm, Z.mod_add by lia.
  apply Z.mod_small, Hc.
Qed.

Lemma X21_animation_cycles_witness :
  curr_frame (run (scenario_60fps 60) init) =
    (curr_frame init + advances (scenario_60fps 60) init) mod 15.
Proof.
  exact (proj1 (X21_animation_cycles (scenario_60fps 60) init 1
                  init_bounded)).
Defined.

End ClockCycleFacts.

(** * The samplers and the resized projection, through whole frames *)

Section SamplerAndResizeFacts.
Import GL App Trace.

Lemma reachable_names_differ p tbl r a :
  reachable p tbl r a -> texture r <> tex_img r.
Proof.
  intros Hr. pose proof (reachable_textures p tbl r a Hr) as Hinv.
  cbv zeta in Hinv.
  generalize dependent (Checkerboard.build_checkerboard (byte_order p)
                          (downsample p) (linked p)).
  intros cb (Htex & Himg & _). lia.
Qed.

(** The samplers after a frame, in any reachable state. *)
Lemma frame_sampler_units p tbl r a events dt :
  active_uniforms p ->
  length tbl = 15%nat ->
  reachable p tbl r a ->
  exists a',
    frame p r tbl dt (poll_events events a) = Ok a' /\
    uniforms (gl a') !! glGetUniformLocation p "tex" = Some (Int1 1) /\
    uniforms (gl a') !! glGetUniformLocation p "img" = Some (Int1 0) /\
    texture_binding_2d (gl a') !! 0 = Some (texture r) /\
    texture_binding_2d (gl a') !! 1 = Some (tex_img r).
Proof.
  intros Hact Hlen Hr.
  destruct (reachable_setup _ _ _ _ Hr) as [a0 Hs0].
  destruct (frame_ok p r tbl dt (poll_events events a) Hlen) as (a' & Hf).
  { rewrite poll_events_clk. apply (reachable_bounded _ _ _ _ Hr). }
  exists a'. split; [exact Hf|].
  destruct (frame_samplers _ _ _ _ _ _ _ Hact Hs0 Hf) as [Htex Himg].
  split; [exact Htex|]. split.
  - rewrite Himg, poll_events_uniforms.
    apply (reachable_img_uniform _ _ _ _ Hact Hr).
  - apply (frame_bindings _ _ _ _ _ _ Hf).
Qed.

(** The state after one frame of 0.016 s with no event pending. *)
Lemma working_platform_first_frame :
  exists r a a',
    setup working_platform blank_frames = Ok (r, a) /\
    frame working_platform r blank_frames Clock.dt_60fps (poll_events [] a) =
      Ok a' /\
    reachable working_platform blank_frames r a'.
Proof.
  destruct working_platform_setup as (r & a & Hs).
  assert (Hr : reachable working_platform blank_frames r a)
    by (apply reach_setup, Hs).
  destruct (frame_ok working_platform r blank_frames Clock.dt_60fps
              (poll_events [] a) eq_refl) as (a' & Hf).
  { apply (reachable_bounded _ _ _ _ Hr). }
  exists r, a, a'. split; [exact Hs|]. split; [exact Hf|].
  apply (reach_frame _ _ _ a [] Clock.dt_60fps a' Hr); [|exact Hf].
  apply (reachable_running _ _ _ _ Hr).
Qed.

(** C4, as stated, fails.  After the first frame of a run (setup on a
    working platform, one frame of 0.016 s) the sampler [tex] holds unit 1
    and reads the animated texture, while [img] holds unit 0 and reads the
    checkerboard: the two samplers are neither both on the checkerboard
    nor on one texture unit. *)
Lemma C4_samplers_differ_after_first_frame :
  exists r a a',
    setup working_platform blank_frames = Ok (r, a) /\
    frame working_platform r blank_frames Clock.dt_60fps (poll_events [] a) =
      Ok a' /\
    sampler_unit working_platform "tex" (gl a') = Some 1 /\
    sampler_unit working_platform "img" (gl a') = Some 0 /\
    sampler_texture working_platform "tex" (gl a') = Some (tex_img r) /\
    sampler_texture working_platform "img" (gl a') = Some (texture r) /\
    tex_img r <> texture r /\
    sampler_unit working_platform "tex" (gl a') <>
      sampler_unit working_platform "img" (gl a') /\
    ~ (sampler_texture working_platform "tex" (gl a') = Some (texture r) /\
       sampler_texture working_platform "img" (gl a') = Some (texture r)).
Proof.
  destruct working_platform_setup as (r & a & Hs).
  assert (Hr : reachable working_platform blank_frames r a)
    by (apply reach_setup, Hs).
  destruct (frame_sampler_units working_platform blank_frames r a []
              Clock.dt_60fps working_platform_active eq_refl Hr)
    as (a' & Hf & Htex & Himg & Hb0 & Hb1).
  pose proof (reachable_names_differ _ _ _ _ Hr) as Hne.
  assert (Hu1 : sampler_unit working_platform "tex" (gl a') = Some 1)
    by (unfold sampler_unit; by rewrite Htex).
  assert (Hu0 : sampler_unit working_platform "img" (gl a') = Some 0)
    by (unfold sampler_unit; by rewrite Himg).
  assert (Ht1 : sampler_texture working_platform "tex" (gl a') =
                Some (tex_img r))
    by (unfold sampler_texture; rewrite Hu1; exact Hb1).
  assert (Ht0 : sampler_texture working_platform "img" (gl a') =
                Some (texture r))
    by (unfold sampler_texture; rewrite Hu0; exact Hb0).
  exists r, a, a'. split; [exact Hs|]. split; [exact Hf|].
  split; [exact Hu1|]. split; [exact Hu0|]. split; [exact Ht1|].
  split; [exact Ht0|]. split; [by intros E; destruct Hne|]. split.
  - rewrite Hu1, Hu0. discriminate.
  - rewrite Ht1. intros [[= E] _]. by destruct Hne.
Qed.

(** C4, amended: [tex_location] and [tex_img_location] are one and the
    same location, that of [tex]; the sampler [img] has another one, which
    nothing writes, so that [img] keeps the unit 0 it had after linking, in
    every state the loop reaches; every frame runs, its two writes both
    land on [tex] and leave it at 1; with the checkerboard bound on unit 0
    and the animated texture on unit 1, [img] reads the checkerboard and
    [tex] the animated texture, which are two different textures. *)
Theorem C4_samplers_share_location_not_unit (p : platform)
    (tbl : list (list Z)) (r : resources) (a : app) :
  active_uniforms p ->
  length tbl = 15%nat ->
  reachable p tbl r a ->
  let tex := glGetUniformLocation p "tex" in
  let img := glGetUniformLocation p "img" in
  tex_location r = tex_img_location r /\
  to_GLint (tex_location r) = tex /\
  to_GLint (tex_img_location r) = tex /\
  tex <> img /\
  uniforms (gl a) !! img = Some (Int1 0) /\
  sampler_unit p "img" (gl a) = Some 0 /\
  forall events dt,
    exists a',
      frame p r tbl dt (poll_events events a) = Ok a' /\
      uniforms (gl a') !! tex = Some (Int1 1) /\
      uniforms (gl a') !! img = Some (Int1 0) /\
      texture_binding_2d (gl a') !! 0 = Some (texture r) /\
      texture_binding_2d (gl a') !! 1 = Some (tex_img r) /\
      sampler_unit p "tex" (gl a') = Some 1 /\
      sampler_unit p "img" (gl a') = Some 0 /\
      sampler_texture p "tex" (gl a') = Some (tex_img r) /\
      sampler_texture p "img" (gl a') = Some (texture r) /\
      texture r <> tex_img r.
Proof.
  intros Hact Hlen Hr tex img. subst tex img.
  destruct (reachable_setup _ _ _ _ Hr) as [a0 Hs0].
  pose proof (reachable_img_uniform _ _ _ _ Hact Hr) as Himg.
  pose proof (active_uniforms_inv p Hact) as ((_ & _ & Ht & _) & _ & _ & Hti & _).
  pose proof (setup_inv _ _ _ _ Hs0) as (_ & _ & _ & _ & _ & Et & Eti & _).
  split; [by rewrite Et, Eti|].
  split; [rewrite Et; apply GLint_of_GLuint; lia|].
  split; [rewrite Eti; apply GLint_of_GLuint; lia|].
  split; [exact Hti|]. split; [exact Himg|].
  split; [unfold sampler_unit; by rewrite Himg|].
  intros events dt.
  destruct (frame_sampler_units p tbl r a events dt Hact Hlen Hr)
    as (a' & Hf & Htex' & Himg' & Hb0 & Hb1).
  assert (Hu1 : sampler_unit p "tex" (gl a') = Some 1)
    by (unfold sampler_unit; by rewrite Htex').
  assert (Hu0 : sampler_unit p "img" (gl a') = Some 0)
    by (unfold sampler_unit; by rewrite Himg').
  exists a'. split; [exact Hf|]. split; [exact Htex'|]. split; [exact Himg'|].
  split; [exact Hb0|]. split; [exact Hb1|]. split; [exact Hu1|].
  split; [exact Hu0|].
  split; [unfold sampler_texture; rewrite Hu1; exact Hb1|].
  split; [unfold sampler_texture; rewrite Hu0; exact Hb0|].
  apply (reachable_names_differ _ _ _ _ Hr).
Qed.

Lemma C4_samplers_share_location_not_unit_witness :
  exists r a1 a2,
    reachable working_platform blank_frames r a1 /\
    Clock.time (clk a1) = Clock.dt_60fps /\
    frame working_platform r blank_frames Clock.dt_60fps
      (poll_events [SDL_KEYDOWN 32] a1) = Ok a2 /\
    tex_location r = tex_img_location r /\
    to_GLint (tex_img_location r) = 2 /\
    uniforms (gl a1) !! 3 = Some (Int1 0) /\
    uniforms (gl a2) !! 2 = Some (Int1 1) /\
    uniforms (gl a2) !! 3 = Some (Int1 0) /\
    sampler_texture working_platform "tex" (gl a2) = Some (tex_img r) /\
    sampler_texture working_platform "img" (gl a2) = Some (texture r).
Proof.
  destruct working_platform_first_frame as (r & a & a1 & Hs & Hf1 & Hr1).
  assert (Hclk : Clock.time (clk a1) = Clock.dt_60fps).
  { pose proof (frame_inv _ _ _ _ _ _ Hf1) as (E1 & _).
    pose proof (setup_inv _ _ _ _ Hs) as (E0 & _).
    rewrite E1. change (poll_events [] a) with a. rewrite E0.
    vm_compute. reflexivity. }
  destruct (C4_samplers_share_location_not_unit working_platform blank_frames
              r a1 working_platform_active eq_refl Hr1)
    as (H1 & _ & H3 & _ & H5 & _ & Hframe).
  destruct (Hframe [SDL_KEYDOWN 32] Clock.dt_60fps)
    as (a2 & Hf2 & Ht & Hi & _ & _ & _ & _ & Hst & Hsi & _).
  exists r, a1, a2. split; [exact Hr1|]. split; [exact Hclk|].
  split; [exact Hf2|]. split; [exact H1|]. split; [exact H3|].
  split; [exact H5|]. split; [exact Ht|]. split; [exact Hi|].
  split; [exact Hst | exact Hsi].
Defined.

(** C8: once the switch has handled a resize event carrying 1024 and
    768, whatever was polled before it, [width] and [height] hold exactly
    these values, the viewport follows, and the projection the coming
    frame builds is the one for [right = (0.1f * 1024) / 768]: in any
    state the loop reaches, the frame that follows runs, keeps that size,
    and leaves at the location of [projection] the array built from this
    [right], whose entry (0,0) is [near / right]. *)
Theorem C8_resize_sets_size_and_right (events : list SDL_Event) (a : app) :
  let a' :=
    poll_events
      (events ++ [SDL_WINDOWEVENT SDL_WINDOWEVENT_RESIZED 1024 768]) a in
  let right :=
    F32.div (F32.mul (F32.lit 1 10) (F32.of_int 1024)) (F32.of_int 768) in
  width a' = 1024 /\ height a' = 768 /\
  viewport (gl a') = (0, 0, 1024, 768) /\
  Projection.right (width a') (height a') = right /\
  frame_projection a' = Projection.matrix right /\
  Projection.entry (frame_projection a') 0 0 =
    Some (F32.div Projection.near right) /\
  forall p tbl r dt,
    active_uniforms p ->
    length tbl = 15%nat ->
    reachable p tbl r a ->
    exists a'',
      frame p r tbl dt a' = Ok a'' /\
      width a'' = 1024 /\ height a'' = 768 /\
      uniforms (gl a'') !! glGetUniformLocation p "projection" =
        Some (Mat4 true (Projection.matrix right)) /\
      (exists m, uniforms (gl a'') !! glGetUniformLocation p "projection" =
                   Some (Mat4 true m) /\
                 Projection.entry m 0 0 =
                   Some (F32.div Projection.near right)).
Proof.
  assert (Hnear : Projection.top = F32.lit 1 10) by (vm_compute; reflexivity).
  intros a' right.
  assert (Hw : width a' = 1024) by (unfold a'; by rewrite poll_events_app).
  assert (Hh : height a' = 768) by (unfold a'; by rewrite poll_events_app).
  assert (Hr : Projection.right (width a') (height a') = right).
  { rewrite Hw, Hh. unfold Projection.right, right. by rewrite Hnear. }
  assert (Hm : Projection.projection (width a') (height a') =
               Projection.matrix right)
    by (unfold Projection.projection; by rewrite Hr).
  split; [exact Hw|]. split; [exact Hh|].
  split; [unfold a'; by rewrite poll_events_app|].
  split; [exact Hr|].
  split; [exact Hm|]. split; [unfold frame_projection; by rewrite Hm|].
  intros p tbl r dt Hact Hlen Hreach. clearbody right.
  destruct (frame_ok p r tbl dt a' Hlen) as (a'' & Hf).
  { unfold a'. rewrite poll_events_clk.
    apply (reachable_bounded _ _ _ _ Hreach). }
  pose proof (frame_inv _ _ _ _ _ _ Hf) as (_ & _ & Hw' & Hh').
  pose proof (frame_matrices p tbl r a _ dt a'' Hact Hreach Hf) as (_ & Hproj).
  fold a' in Hproj. rewrite Hm in Hproj.
  exists a''. split; [exact Hf|].
  split; [by rewrite Hw'|]. split; [by rewrite Hh'|].
  split; [exact Hproj|].
  exists (Projection.matrix right). split; [exact Hproj|reflexivity].
Qed.

Lemma C8_resize_sets_size_and_right_witness :
  exists r a1 a2,
    reachable working_platform blank_frames r a1 /\
    frame working_platform r blank_frames Clock.dt_60fps
      (poll_events
         ([SDL_KEYUP 32] ++ [SDL_WINDOWEVENT SDL_WINDOWEVENT_RESIZED 1024 768])
         a1) = Ok a2 /\
    width a2 = 1024 /\ height a2 = 768 /\
    uniforms (gl a2) !! 1 =
      Some (Mat4 true
              (Projection.matrix
                 (F32.div (F32.mul (F32.lit 1 10) (F32.of_int 1024))
                    (F32.of_int 768)))).
Proof.
  destruct working_platform_first_frame as (r & a & a1 & _ & _ & Hr1).
  destruct (C8_resize_sets_size_and_right [SDL_KEYUP 32] a1)
    as (_ & _ & _ & _ & _ & _ & Hframe).
  destruct (Hframe working_platform blank_frames r Clock.dt_60fps
              working_platform_active eq_refl Hr1)
    as (a2 & Hf & Hw & Hh & Hu & _).
  exists r, a1, a2. by repeat split.
Defined.

End SamplerAndResizeFacts.
